(** * api-envios: the shipment service of [src/app.py], embedded and verified

    The service is a Flask application with four handlers ([health],
    [listar_envios], [obtener_envio], [crear_envio]) over one SQLAlchemy
    model, [Envio], stored in PostgreSQL through psycopg2.  The handlers
    are embedded as functions over an explicit session state; what the
    Python runtime, the web framework, the driver and the database decide
    on their own (the clock, the values a sequence loses, the order of an
    unordered SELECT, connection faults, the adaptation of parameters that
    are not text) is collected in an environment record, [Env], over which
    the theorems quantify.

    A Python string is modelled by its UTF-8 encoding, the encoding of the
    source file and of the connection; a lone surrogate, which JSON can
    carry and UTF-8 cannot, by the three bytes of its generalised encoding.
    The length of a string in characters is [char_length], not the number
    of its bytes.

    The queries of the read handlers ([Envio.query.all], [Envio.query.get])
    are total functions of the table: the theorems on them describe the
    service while its database answers.  Faults are modelled on the write
    path, where the source handles them.

    The specification renders the identifiers of the code in English
    (recipient = [destinatario], address = [direccion], status = [estado],
    registeredAt = [fecha_registro], /shipments = /envios, "Registered" =
    "Registrado", and the three error messages).  The development keeps the
    names and literals of the source. *)

From Stdlib Require Import ZArith List String Ascii Bool Lia DecimalString.
From Stdlib Require Import Permutation Floats.
Import ListNotations.
Open Scope string_scope.
Open Scope Z_scope.

Set Warnings "-register-all,-notation-for-abbreviation".

(** ** Python values and exceptions *)

(** The values [request.json] can produce, and the bodies handed to
    [jsonify].  A float is the IEEE double the JSON text decodes to. *)
Inductive pyval : Type :=
| PNone
| PBool (b : bool)
| PInt (n : Z)
| PFloat (f : float)
| PStr (s : string)
| PList (l : list pyval)
| PDict (d : list (string * pyval)).

(** The exceptions that can cross a handler.  [BadRequest],
    [UnsupportedMediaType] and [NotFound] are werkzeug's HTTP exceptions;
    every database error ([IntegrityError], [DataError],
    [OperationalError], [ProgrammingError], ...) is a subclass of
    [SQLAlchemyError], the only class the source catches; [ValueError]
    (with its subclass [UnicodeEncodeError]) is what the driver raises for
    a string it cannot send. *)
Inductive exn : Type :=
| TypeError
| KeyError
| AttributeError
| ValueError
| BadRequest
| UnsupportedMediaType
| NotFound
| SQLAlchemyError.

(** A computation that returns a value or raises. *)
Definition py (A : Type) : Type := (A + exn)%type.

Definition ret {A : Type} (a : A) : py A := inl a.
Definition raise {A : Type} (e : exn) : py A := inr e.
Definition bind {A B : Type} (m : py A) (k : A -> py B) : py B :=
  match m with
  | inl a => k a
  | inr e => inr e
  end.

Notation "x <- m ;; k" := (bind m (fun x => k))
  (at level 61, m at next level, right associativity).

(** [bool(v)]: the truth value Python gives to [v].  A float is false when
    it compares equal to zero (0.0 and -0.0; a NaN is true). *)
Definition truthy (v : pyval) : bool :=
  match v with
  | PNone => false
  | PBool b => b
  | PInt n => negb (n =? 0)
  | PFloat f => negb (PrimFloat.eqb f 0%float)
  | PStr s => negb (String.eqb s "")
  | PList l => match l with [] => false | _ :: _ => true end
  | PDict d => match d with [] => false | _ :: _ => true end
  end.

(** [a or b]. *)
Definition py_or (a b : pyval) : pyval := if truthy a then a else b.

(** A dict is an association list read at the first binding of a key. *)
Fixpoint lookup (k : string) (d : list (string * pyval)) : option pyval :=
  match d with
  | [] => None
  | (k', v) :: d' => if String.eqb k k' then Some v else lookup k d'
  end.

Definition is_str (f : string) (v : pyval) : bool :=
  match v with
  | PStr s => String.eqb s f
  | _ => false
  end.

Fixpoint is_substring (p s : string) : bool :=
  prefix p s ||
  match s with
  | EmptyString => false
  | String _ s' => is_substring p s'
  end.

(** [f in data] for a string [f]: key membership in a dict, element
    membership in a list, substring test in a string, and [TypeError] for a
    value that is not a container. *)
Definition py_contains (f : string) (data : pyval) : py bool :=
  match data with
  | PDict d => ret (match lookup f d with Some _ => true | None => false end)
  | PList l => ret (existsb (is_str f) l)
  | PStr s => ret (is_substring f s)
  | _ => raise TypeError
  end.

(** [data[k]] for a string [k]. *)
Definition py_getitem (data : pyval) (k : string) : py pyval :=
  match data with
  | PDict d => match lookup k d with Some v => ret v | None => raise KeyError end
  | _ => raise TypeError
  end.

(** [data.get(k, default)]. *)
Definition py_get (data : pyval) (k : string) (default : pyval) : py pyval :=
  match data with
  | PDict d => ret (match lookup k d with Some v => v | None => default end)
  | _ => raise AttributeError
  end.

(** [sep.join(l)]. *)
Definition join (sep : string) (l : list string) : string := String.concat sep l.

(** ** Characters *)

(** A byte of the form 10xxxxxx continues a character. *)
Definition is_continuation (a : ascii) : bool :=
  (128 <=? nat_of_ascii a)%nat && (nat_of_ascii a <? 192)%nat.

(** [len(s)]: the number of characters of [s]. *)
Fixpoint char_length (s : string) : nat :=
  match s with
  | EmptyString => O
  | String a s' => ((if is_continuation a then 0 else 1) + char_length s')%nat
  end.

(** The first [n] characters of [s]. *)
Fixpoint take_chars (n : nat) (s : string) : string :=
  match s with
  | EmptyString => EmptyString
  | String a s' =>
    if is_continuation a then String a (take_chars n s')
    else match n with
         | O => EmptyString
         | S n' => String a (take_chars n' s')
         end
  end.

(** What follows the first [n] characters of [s]. *)
Fixpoint drop_chars (n : nat) (s : string) : string :=
  match s with
  | EmptyString => EmptyString
  | String a s' =>
    if is_continuation a then drop_chars n s'
    else match n with
         | O => s
         | S n' => drop_chars n' s'
         end
  end.

Fixpoint all_spaces (s : string) : bool :=
  match s with
  | EmptyString => true
  | String a s' => Ascii.eqb a " " && all_spaces s'
  end.

(** The character U+0000 occurs in [s]. *)
Fixpoint has_nul (s : string) : bool :=
  match s with
  | EmptyString => false
  | String a s' => Ascii.eqb a Ascii.zero || has_nul s'
  end.

(** A surrogate occurs in [s]: the byte ED followed by a byte from A0 up. *)
Fixpoint has_surrogate (s : string) : bool :=
  match s with
  | EmptyString => false
  | String a s' =>
    match s' with
    | String b _ =>
      ((nat_of_ascii a =? 237)%nat && (160 <=? nat_of_ascii b)%nat) || has_surrogate s'
    | EmptyString => false
    end
  end.

(** The driver can send [s] as a string literal: it quotes no U+0000 and
    encodes no surrogate. *)
Definition encodable (s : string) : bool :=
  negb (has_nul s) && negb (has_surrogate s).

(** ** The request body *)

(** What the handler can observe of a request: whether its content type
    announces JSON, and the value its body decodes to ([None] when the body
    is empty or is not JSON text). *)
Record Request : Type := {
  is_json : bool;
  payload : option pyval
}.

(** ** The environment of one request *)

Inductive fault : Type :=
| NoFault
| ConnectFault  (* no connection can be had for the INSERT *)
| CommitFault   (* COMMIT fails and the transaction is not committed *)
| CommitLost    (* the server commits and the connection fails before it says so *)
| ReloadFault.  (* the connection fails after the commit, at the reload of line 116 *)

Record datetime : Type := {
  year : nat; month : nat; day : nat;
  hour : nat; minute : nat; second : nat; microsecond : nat
}.

(** What becomes of a parameter that is neither a string nor [None] when it
    is bound to a VARCHAR column. *)
Inductive adapted : Type :=
| AsText (s : string)  (* sent; the server casts it to this text *)
| NotCast              (* sent; the server refuses the cast *)
| NotAdapted           (* psycopg2.ProgrammingError, nothing is sent *)
| BadValue.            (* ValueError, nothing is sent *)

Record Env : Type := {
  (** werkzeug from 2.1 on aborts when the content type is not JSON;
      earlier releases make [request.json] evaluate to [None] *)
  strict_mimetype : bool;
  (** the connection fault met by this request, if any *)
  db_fault : fault;
  (** the value of the server's [now()] *)
  now : datetime;
  (** sequence values lost before this insert: PostgreSQL sequences are
      not transactional, a value drawn by a failed insert is not reused *)
  skip : nat;
  (** the driver's and the server's treatment of a parameter that is
      neither a string nor [None] *)
  adapt : pyval -> adapted;
  (** the order in which a SELECT without ORDER BY returns the rows: the
      positions at which [shuffle] puts them *)
  scan : list nat
}.

(** [request.json], that is [request.get_json(force=False, silent=False)]. *)
Definition request_json (env : Env) (req : Request) : py pyval :=
  if is_json req then
    match payload req with
    | Some v => ret v
    | None => raise BadRequest
    end
  else if strict_mimetype env then raise UnsupportedMediaType
  else ret PNone.

(** ** The model [Envio] (lines 27-43) *)

Record Envio : Type := {
  id : Z;
  destinatario : string;
  direccion : string;
  estado : string;
  fecha_registro : option datetime
}.

Definition digits (n : nat) : string := NilEmpty.string_of_uint (Nat.to_uint n).

Definition zfill (width : nat) (s : string) : string :=
  String.concat "" (repeat "0" (width - String.length s)) ++ s.

(** [str(d)] for a naive [datetime]: ISO format with a space separator, the
    microseconds printed only when they are not zero. *)
Definition str_datetime (d : datetime) : string :=
  zfill 4 (digits (year d)) ++ "-" ++ zfill 2 (digits (month d)) ++ "-" ++
  zfill 2 (digits (day d)) ++ " " ++ zfill 2 (digits (hour d)) ++ ":" ++
  zfill 2 (digits (minute d)) ++ ":" ++ zfill 2 (digits (second d)) ++
  match microsecond d with
  | O => ""
  | S _ => "." ++ zfill 6 (digits (microsecond d))
  end.

(** [str(self.fecha_registro)]; the column is nullable. *)
Definition str_fecha (f : option datetime) : string :=
  match f with
  | Some d => str_datetime d
  | None => "None"
  end.

Definition to_dict (self : Envio) : pyval :=
  PDict [ ("id", PInt (id self));
          ("destinatario", PStr (destinatario self));
          ("direccion", PStr (direccion self));
          ("estado", PStr (estado self));
          ("fecha_registro", PStr (str_fecha (fecha_registro self))) ].

(** ** The table and the session *)

(** The committed table [envios] and the next value of the sequence behind
    its autoincrement key. *)
Record Database : Type := {
  rows : list Envio;
  seq : Z
}.

(** An [Envio(...)] object before it is flushed: the three constructor
    arguments of lines 107-111. *)
Record Transient : Type := {
  t_destinatario : pyval;
  t_direccion : pyval;
  t_estado : pyval
}.

(** [db.session]: the committed state, the state seen inside the open
    transaction, and the objects added but not yet flushed. *)
Record Session : Type := {
  store : Database;
  working : Database;
  pending : list Transient
}.

Definition begin (db : Database) : Session :=
  {| store := db; working := db; pending := [] |}.

Definition int4_max : Z := 2147483647.

(** A parameter as the driver sends it. *)
Inductive param : Type :=
| Null
| Text (s : string)
| Uncastable.

(** The driver's side of binding a value: it raises, or sends something. *)
Definition bind_param (env : Env) (v : pyval) : py param :=
  match v with
  | PNone => ret Null
  | PStr s => if encodable s then ret (Text s) else raise ValueError
  | _ =>
    match adapt env v with
    | AsText s => ret (Text s)
    | NotCast => ret Uncastable
    | NotAdapted => raise SQLAlchemyError
    | BadValue => raise ValueError
    end
  end.

(** The server's rule for a text assigned to VARCHAR([limit]): a text
    within the limit is stored as it is; a longer one is an error, unless
    the characters in excess are all spaces, and then it is cut at the
    limit. *)
Definition store_varchar (limit : nat) (s : string) : py string :=
  if (char_length s <=? limit)%nat then ret s
  else if all_spaces (drop_chars limit s) then ret (take_chars limit s)
  else raise SQLAlchemyError.

(** The server's side for a [String(limit)] column with [nullable=False]. *)
Definition column (limit : nat) (p : param) : py string :=
  match p with
  | Null => raise SQLAlchemyError
  | Uncastable => raise SQLAlchemyError
  | Text s => store_varchar limit s
  end.

(** What a [String(limit)] column stores for a value, both sides together. *)
Definition stored (env : Env) (limit : nat) (v : pyval) : py string :=
  p <- bind_param env v ;; column limit p.

(** A column declared with [default=d]: an attribute left at [None] is
    omitted from the INSERT and the default fires. *)
Definition with_default (d : pyval) (v : pyval) : pyval :=
  match v with
  | PNone => d
  | _ => v
  end.

(** The INSERT of one object inside the transaction.  The driver first
    adapts the three parameters in the order of the statement; then the
    server applies the declared schema: [nullable=False] and the VARCHAR
    limits of lines 31-33, the integer primary key of line 30 drawn from
    its sequence (1 to 2147483647), [server_default=now()] of line 34. *)
Definition insert (env : Env) (w : Database) (obj : Transient)
  : py (Envio * Database) :=
  match db_fault env with
  | ConnectFault => raise SQLAlchemyError
  | _ =>
    p1 <- bind_param env (t_destinatario obj) ;;
    p2 <- bind_param env (t_direccion obj) ;;
    p3 <- bind_param env (with_default (PStr "Registrado") (t_estado obj)) ;;
    d <- column 120 p1 ;;
    a <- column 200 p2 ;;
    e <- column 30 p3 ;;
    let new_id := seq w + Z.of_nat (skip env) in
    if (1 <=? new_id) && (new_id <=? int4_max)
       && negb (existsb (Z.eqb new_id) (map id (rows w)))
    then
      let row := {| id := new_id; destinatario := d; direccion := a;
                    estado := e; fecha_registro := Some (now env) |} in
      ret (row, {| rows := rows w ++ [row]; seq := new_id + 1 |})
    else raise SQLAlchemyError
  end.

(** [db.session.add(obj)] *)
Definition session_add (obj : Transient) (s : Session) : Session :=
  {| store := store s; working := working s; pending := pending s ++ [obj] |}.

(** The flush: the pending objects are inserted in order; the first
    failure raises and leaves the objects not yet inserted pending. *)
Fixpoint flush (env : Env) (w : Database) (objs : list Transient)
  : py (list Envio) * Database * list Transient :=
  match objs with
  | [] => (ret [], w, [])
  | obj :: objs' =>
    match insert env w obj with
    | inl (row, w') =>
      match flush env w' objs' with
      | (inl new, w'', rest) => (ret (row :: new), w'', rest)
      | (inr e, w'', rest) => (raise e, w'', rest)
      end
    | inr e => (raise e, w, objs)
    end
  end.

(** [db.session.commit()]: flush, then COMMIT.  A COMMIT that fails leaves
    the transaction uncommitted, or, when only its acknowledgement is lost,
    committed. *)
Definition session_commit (env : Env) (s : Session)
  : py (list Envio) * Session :=
  match flush env (working s) (pending s) with
  | (inl new, w, rest) =>
    match db_fault env with
    | CommitFault =>
      (raise SQLAlchemyError, {| store := store s; working := w; pending := rest |})
    | CommitLost =>
      (raise SQLAlchemyError, {| store := w; working := w; pending := rest |})
    | _ => (ret new, {| store := w; working := w; pending := rest |})
    end
  | (inr e, w, rest) =>
    (raise e, {| store := store s; working := w; pending := rest |})
  end.

(** [db.session.rollback()] *)
Definition session_rollback (s : Session) : Session :=
  {| store := store s; working := store s; pending := [] |}.

Fixpoint insert_at {A : Type} (k : nat) (x : A) (l : list A) : list A :=
  match k, l with
  | S k', y :: l' => y :: insert_at k' x l'
  | _, _ => x :: l
  end.

(** The rows of [l] in the order the positions [ks] give: each row is put
    at its position among the rows that follow it. *)
Fixpoint shuffle {A : Type} (ks : list nat) (l : list A) : list A :=
  match l with
  | [] => []
  | x :: l' => insert_at (hd O ks) x (shuffle (tl ks) l')
  end.

(** [Envio.query.all()]: every row, in the order the server chooses. *)
Definition query_all (env : Env) (s : Session) : list Envio :=
  shuffle (scan env) (rows (working s)).

(** [Envio.query.get(id)]: the row with that primary key, if any. *)
Definition query_get (i : Z) (s : Session) : option Envio :=
  find (fun e => Z.eqb (id e) i) (rows (working s)).

(** ** Standard responses (lines 62-66) *)

(** A response: the body given to [jsonify] and the status code. *)
Definition response : Type := (pyval * Z)%type.

(** [ok(data, code=200)] *)
Definition ok (data : pyval) (code : Z) : response :=
  (PDict [("success", PBool true); ("data", data)], code).

(** [error(message, code=400)] *)
Definition error (message : string) (code : Z) : response :=
  (PDict [("success", PBool false); ("error", PStr message)], code).

(** ** The handlers (lines 71-119) *)

Definition health (s : Session) : py response * Session :=
  (ret (ok (PDict [("status", PStr "ok")]) 200), s).

Definition listar_envios (env : Env) (s : Session) : py response * Session :=
  (ret (ok (PList (map to_dict (query_all env s))) 200), s).

Definition obtener_envio (i : Z) (s : Session) : py response * Session :=
  match query_get i s with
  | None => (ret (error "Envío no encontrado" 404), s)
  | Some envio => (ret (ok (to_dict envio) 200), s)
  end.

Definition required : list string := ["destinatario"; "direccion"].

(** [[f for f in fields if f not in data]] *)
Fixpoint missing_fields (fields : list string) (data : pyval) : py (list string) :=
  match fields with
  | [] => ret []
  | f :: fields' =>
    present <- py_contains f data ;;
    rest <- missing_fields fields' data ;;
    ret (if present then rest else f :: rest)
  end.

(** The constructor call of lines 107-111. *)
Definition new_envio (data : pyval) : py Transient :=
  d <- py_getitem data "destinatario" ;;
  a <- py_getitem data "direccion" ;;
  e <- py_get data "estado" (PStr "Registrado") ;;
  ret {| t_destinatario := d; t_direccion := a; t_estado := e |}.

(** [to_dict] of an object that was never flushed: its [id] and
    [fecha_registro] are still [None]. *)
Definition to_dict_transient (obj : Transient) : pyval :=
  PDict [ ("id", PNone);
          ("destinatario", t_destinatario obj);
          ("direccion", t_direccion obj);
          ("estado", t_estado obj);
          ("fecha_registro", PStr "None") ].

(** [envio.to_dict()] after the commit: [envio] was the last object added,
    so its row is the last one the flush wrote. *)
Definition to_dict_committed (new : list Envio) (envio : Transient) : pyval :=
  match rev new with
  | row :: _ => to_dict row
  | [] => to_dict_transient envio
  end.

(** [envio.to_dict()] at line 116: the commit has expired the object, and
    reading its attributes reloads the row over the connection. *)
Definition reload (env : Env) (new : list Envio) (envio : Transient) : py pyval :=
  match db_fault env with
  | ReloadFault => raise SQLAlchemyError
  | _ => ret (to_dict_committed new envio)
  end.

Definition crear_envio (env : Env) (req : Request) (s : Session)
  : py response * Session :=
  match request_json env req with
  | inr e => (raise e, s)
  | inl json =>
    let data := py_or json (PDict []) in
    match missing_fields required data with
    | inr e => (raise e, s)
    | inl ((_ :: _) as missing) =>
      (ret (error ("Faltan campos obligatorios: " ++ join ", " missing) 400), s)
    | inl [] =>
      match new_envio data with
      | inr e => (raise e, s)
      | inl envio =>
        match session_commit env (session_add envio s) with
        | (inl new, s') =>
          match reload env new envio with
          | inl dict => (ret (ok dict 201), s')
          | inr SQLAlchemyError =>
            (ret (error "Error al guardar en la base de datos" 500),
             session_rollback s')
          | inr e => (raise e, s')
          end
        | (inr SQLAlchemyError, s') =>
          (ret (error "Error al guardar en la base de datos" 500),
           session_rollback s')
        | (inr e, s') => (raise e, s')
        end
      end
    end
  end.

(** ** Serving requests *)

Inductive call : Type :=
| Health
| ListarEnvios
| ObtenerEnvio (i : Z)
| CrearEnvio (req : Request).

(** The routes of lines 71, 78, 86 and 96.  The converter of
    [/envios/<int:id>] matches digits only: a negative id matches no route
    and the framework answers with its own 404. *)
Definition handle (env : Env) (c : call) (s : Session) : py response * Session :=
  match c with
  | Health => health s
  | ListarEnvios => listar_envios env s
  | ObtenerEnvio i => if i <? 0 then (raise NotFound, s) else obtener_envio i s
  | CrearEnvio req => crear_envio env req s
  end.

(** One request: the handler runs in a session of its own, which is
    discarded when the request ends; only what was committed remains. *)
Definition serve (env : Env) (c : call) (db : Database) : py response * Database :=
  let (r, s) := handle env c (begin db) in (r, store s).

(** A sequence of requests, each with its environment. *)
Fixpoint run (cs : list (Env * call)) (db : Database)
  : list (py response) * Database :=
  match cs with
  | [] => ([], db)
  | (env, c) :: cs' =>
    let (r, db') := serve env c db in
    let (rs, db'') := run cs' db' in
    (r :: rs, db'')
  end.

(** The table created by [db.create_all()]. *)
Definition create_all : Database := {| rows := []; seq := 1 |}.

(** ** Observations on responses and tables *)

(** The field [k] of a serialized object. *)
Definition lookup_field (k : string) (data : pyval) : option pyval :=
  match data with
  | PDict fields => lookup k fields
  | _ => None
  end.

(** The [id] carried by a 201 response. *)
Definition returned_id (r : py response) : option Z :=
  match r with
  | inl (PDict body, code) =>
    if code =? 201 then
      match lookup "data" body with
      | Some (PDict fields) =>
        match lookup "id" fields with
        | Some (PInt n) => Some n
        | _ => None
        end
      | _ => None
      end
    else None
  | _ => None
  end.

Fixpoint returned_ids (rs : list (py response)) : list Z :=
  match rs with
  | [] => []
  | r :: rs' =>
    match returned_id r with
    | Some n => n :: returned_ids rs'
    | None => returned_ids rs'
    end
  end.

(** The shipment object carried by a 201 response. *)
Definition created_object (r : py response) : option pyval :=
  match r with
  | inl (PDict body, code) => if code =? 201 then lookup "data" body else None
  | _ => None
  end.

Fixpoint created_objects (rs : list (py response)) : list pyval :=
  match rs with
  | [] => []
  | r :: rs' =>
    match created_object r with
    | Some data => data :: created_objects rs'
    | None => created_objects rs'
    end
  end.

(** Every key is below the next value of the sequence. *)
Definition keys_below_seq (db : Database) : Prop :=
  Forall (fun e => id e < seq db) (rows db).

(** The fields validation reports for an object body. *)
Definition absent_fields (d : list (string * pyval)) : list string :=
  match lookup "destinatario" d, lookup "direccion" d with
  | Some _, Some _ => []
  | None, Some _ => ["destinatario"]
  | Some _, None => ["direccion"]
  | None, None => ["destinatario"; "direccion"]
  end.

(** The envio built from an object body that holds both required keys. *)
Definition envio_of (d : list (string * pyval)) (v1 v2 : pyval) : Transient :=
  {| t_destinatario := v1; t_direccion := v2;
     t_estado := match lookup "estado" d with
                 | Some v => v
                 | None => PStr "Registrado"
                 end |}.

(** The driver sends [v]: binding it raises no [ValueError]. *)
Definition sendable (env : Env) (v : pyval) : bool :=
  match bind_param env v with
  | inr ValueError => false
  | _ => true
  end.

(** The connection is lost once the server has committed. *)
Definition late_fault (env : Env) : bool :=
  match db_fault env with
  | CommitLost | ReloadFault => true
  | _ => false
  end.

(** The outcomes of one create request on the table [db], by the path the
    handler takes: the response and the table left behind. *)
Inductive crear_result (env : Env) (req : Request) (db : Database)
  : py response -> Database -> Prop :=
| CrearAborted e :
    request_json env req = inr e ->
    crear_result env req db (inr e) db
| CrearTypeError j :
    request_json env req = inl j ->
    truthy j = true ->
    (forall d, j <> PDict d) ->
    crear_result env req db (inr TypeError) db
| CrearInvalid j missing :
    request_json env req = inl j ->
    missing_fields required (py_or j (PDict [])) = inl missing ->
    missing <> [] ->
    crear_result env req db
      (inl (error ("Faltan campos obligatorios: " ++ join ", " missing) 400)) db
| CrearUnsendable j d v1 v2 :
    request_json env req = inl j ->
    py_or j (PDict []) = PDict d ->
    lookup "destinatario" d = Some v1 ->
    lookup "direccion" d = Some v2 ->
    insert env db (envio_of d v1 v2) = inr ValueError ->
    crear_result env req db (inr ValueError) db
| CrearFailed j d v1 v2 :
    request_json env req = inl j ->
    py_or j (PDict []) = PDict d ->
    lookup "destinatario" d = Some v1 ->
    lookup "direccion" d = Some v2 ->
    (insert env db (envio_of d v1 v2) = inr SQLAlchemyError
     \/ db_fault env = CommitFault) ->
    crear_result env req db
      (inl (error "Error al guardar en la base de datos" 500)) db
| CrearLate j d v1 v2 row db' :
    request_json env req = inl j ->
    py_or j (PDict []) = PDict d ->
    lookup "destinatario" d = Some v1 ->
    lookup "direccion" d = Some v2 ->
    insert env db (envio_of d v1 v2) = inl (row, db') ->
    late_fault env = true ->
    crear_result env req db
      (inl (error "Error al guardar en la base de datos" 500)) db'
| CrearCreated j d v1 v2 row db' :
    request_json env req = inl j ->
    py_or j (PDict []) = PDict d ->
    lookup "destinatario" d = Some v1 ->
    lookup "direccion" d = Some v2 ->
    insert env db (envio_of d v1 v2) = inl (row, db') ->
    db_fault env = NoFault ->
    crear_result env req db (inl (ok (to_dict row) 201)) db'.

Definition is_create (c : call) : bool :=
  match c with
  | CrearEnvio _ => true
  | _ => false
  end.

(** The create requests of a run. *)
Definition writes (cs : list (Env * call)) : list (Env * call) :=
  filter (fun ec => is_create (snd ec)) cs.

(** The answers a run gave to its create requests. *)
Fixpoint create_answers (cs : list (Env * call)) (rs : list (py response))
  : list (py response) :=
  match cs, rs with
  | (_, c) :: cs', r :: rs' =>
    if is_create c then r :: create_answers cs' rs' else create_answers cs' rs'
  | _, _ => []
  end.

(** ** Concrete inputs *)

Definition t0 : datetime :=
  {| year := 2024; month := 3; day := 7;
     hour := 9; minute := 5; second := 0; microsecond := 120 |}.

Definition env_with (strict : bool) (f : fault) : Env :=
  {| strict_mimetype := strict; db_fault := f; now := t0; skip := 0;
     adapt := fun _ => NotAdapted; scan := [] |}.

Definition env0 : Env := env_with true NoFault.

Definition env_commit_fault : Env := env_with true CommitFault.

Definition env_reload_fault : Env := env_with true ReloadFault.

Definition env_lenient : Env := env_with false NoFault.

(** An environment whose SELECT returns the rows last first. *)
Definition env_reversed : Env :=
  {| strict_mimetype := true; db_fault := NoFault; now := t0; skip := 0;
     adapt := fun _ => NotAdapted; scan := [9; 9; 9; 9]%nat |}.

(** A POST whose content type announces JSON and whose body decodes to [v]. *)
Definition post (v : pyval) : Request := {| is_json := true; payload := Some v |}.

Definition ana : pyval :=
  PDict [("destinatario", PStr "Ana Gomez"); ("direccion", PStr "Calle 1")].

Definition ana_row : Envio :=
  {| id := 1; destinatario := "Ana Gomez"; direccion := "Calle 1";
     estado := "Registrado"; fecha_registro := Some t0 |}.

(** A recipient of 121 characters. *)
Definition long_name : string := String.concat "" (repeat "a" 121%nat).

Definition long_recipient : pyval :=
  PDict [("destinatario", PStr long_name); ("direccion", PStr "Calle 1")].

(** A recipient of 61 characters of two bytes each. *)
Definition enyes : string := String.concat "" (repeat "ñ" 61%nat).

(** The specification's scenario: the address is omitted. *)
Definition only_recipient : pyval := PDict [("destinatario", PStr "Ana Gomez")].

Definition null_recipient : pyval :=
  PDict [("destinatario", PNone); ("direccion", PStr "Calle 1")].

(** A recipient that holds the character U+0000. *)
Definition nul_name : string := String "a" (String Ascii.zero "b").

Definition nul_recipient : pyval :=
  PDict [("destinatario", PStr nul_name); ("direccion", PStr "Calle 1")].

Definition empty_fields : pyval :=
  PDict [("destinatario", PStr ""); ("direccion", PStr "")].

Definition empty_row : Envio :=
  {| id := 1; destinatario := ""; direccion := "";
     estado := "Registrado"; fecha_registro := Some t0 |}.

(** A body that also carries a key and a timestamp of the client's. *)
Definition ana_with_extras : pyval :=
  PDict [("id", PInt 999); ("fecha_registro", PStr "1999-12-31 00:00:00");
         ("destinatario", PStr "Ana Gomez"); ("direccion", PStr "Calle 1");
         ("prioridad", PBool true)].

(** A request that announces JSON and whose body is not JSON text. *)
Definition unparseable : Request := {| is_json := true; payload := None |}.

(** A request that does not announce JSON. *)
Definition no_body : Request := {| is_json := false; payload := None |}.

(** A status of 31 characters. *)
Definition long_status : string := String.concat "" (repeat "x" 31%nat).

Definition ana_long_status : pyval :=
  PDict [("destinatario", PStr "Ana Gomez"); ("direccion", PStr "Calle 1");
         ("estado", PStr long_status)].

Definition ana_null_status : pyval :=
  PDict [("destinatario", PStr "Ana Gomez"); ("direccion", PStr "Calle 1");
         ("estado", PNone)].

(** A JSON array that holds the names of both required fields. *)
Definition names_array : pyval := PList [PStr "destinatario"; PStr "direccion"].

(** The bodies of the two envelopes and of a serialized shipment, written
    out: the statements below hold these literals, not [ok], [error] and
    [to_dict]. *)
Notation success_body data :=
  (PDict [("success", PBool true); ("data", data)]).

Notation error_body message :=
  (PDict [("success", PBool false); ("error", PStr message)]).

Notation shipment_body i d a e f :=
  (PDict [("id", PInt i); ("destinatario", PStr d); ("direccion", PStr a);
          ("estado", PStr e); ("fecha_registro", PStr f)]).

(** * Properties *)

(** ** Characters and columns *)

Lemma take_chars_length n : forall s, (char_length (take_chars n s) <= n)%nat.
Proof.
  intros s. revert n.
  induction s as [|a s IH]; intros n; cbn; [lia|].
  destruct (is_continuation a) eqn:Ha; cbn.
  - rewrite Ha. specialize (IH n). lia.
  - destruct n as [|n]; cbn; [lia|]. rewrite Ha. specialize (IH n). lia.
Qed.

Lemma take_chars_all n : forall s, (char_length s <= n)%nat -> take_chars n s = s.
Proof.
  intros s. revert n.
  induction s as [|a s IH]; intros n H; cbn in *; [reflexivity|].
  destruct (is_continuation a).
  - f_equal. apply IH. lia.
  - destruct n as [|n]; [lia|]. f_equal. apply IH. lia.
Qed.

Lemma store_varchar_raises limit s e :
  store_varchar limit s = inr e -> e = SQLAlchemyError.
Proof.
  unfold store_varchar, raise, ret.
  destruct (char_length s <=? limit)%nat; [discriminate|].
  destruct (all_spaces _); congruence.
Qed.

Lemma store_varchar_ok limit s t :
  store_varchar limit s = inl t ->
  t = take_chars limit s
  /\ (char_length t <= limit)%nat
  /\ ((char_length s <= limit)%nat -> t = s).
Proof.
  unfold store_varchar, raise, ret. intros H.
  destruct (char_length s <=? limit)%nat eqn:Hl.
  - apply Nat.leb_le in Hl. injection H as <-.
    rewrite (take_chars_all limit s Hl). auto.
  - destruct (all_spaces _); [|discriminate]. injection H as <-.
    split; [reflexivity|]. split; [apply take_chars_length|].
    apply Nat.leb_gt in Hl. lia.
Qed.

Lemma store_varchar_within limit s :
  (char_length s <= limit)%nat -> store_varchar limit s = inl s.
Proof.
  intros H. unfold store_varchar. apply Nat.leb_le in H. now rewrite H.
Qed.

Lemma bind_param_raises env v e :
  bind_param env v = inr e -> e = SQLAlchemyError \/ e = ValueError.
Proof.
  unfold bind_param, raise, ret.
  destruct v; try discriminate;
    try (destruct (adapt env _); intros H; inversion H; auto).
  destruct (encodable s); intros H; inversion H; auto.
Qed.

Lemma column_raises limit p e :
  column limit p = inr e -> e = SQLAlchemyError.
Proof.
  destruct p; cbn; unfold raise; try congruence. apply store_varchar_raises.
Qed.

Lemma stored_string env limit s :
  encodable s = true -> (char_length s <= limit)%nat ->
  stored env limit (PStr s) = inl s.
Proof.
  intros He Hl. unfold stored, bind_param, bind, ret. rewrite He. cbn.
  now apply store_varchar_within.
Qed.

(** What a column stores for a value: never for [None]; for a string, its
    first characters up to the limit, the string itself when it fits. *)
Lemma stored_ok env limit v t :
  stored env limit v = inl t ->
  v <> PNone
  /\ (char_length t <= limit)%nat
  /\ (forall s, v = PStr s ->
        encodable s = true /\ t = take_chars limit s
        /\ ((char_length s <= limit)%nat -> t = s)).
Proof.
  unfold stored, bind. intros H.
  destruct (bind_param env v) as [p|e] eqn:Hb; [|discriminate].
  destruct p as [ | s0 | ]; cbn in H; try discriminate.
  apply store_varchar_ok in H as (Ht & Hl & Hs).
  split.
  - intros ->. cbn in Hb. discriminate.
  - split; [exact Hl|].
    intros s ->. cbn in Hb. unfold ret, raise in Hb.
    destruct (encodable s); [|discriminate]. injection Hb as <-. auto.
Qed.

(** ** The insert and the session *)

Lemma stored_split env limit v t :
  stored env limit v = inl t ->
  exists p, bind_param env v = inl p /\ column limit p = inl t.
Proof.
  unfold stored, bind. destruct (bind_param env v) as [p|e]; [eauto|discriminate].
Qed.

Ltac case_insert H :=
  repeat match type of H with
         | context [bind_param ?e ?v] =>
           let Hb := fresh "Hb" in
           destruct (bind_param e v) eqn:Hb; cbn [bind] in H
         | context [column ?l ?p] =>
           let Hc := fresh "Hc" in
           destruct (column l p) eqn:Hc; cbn [bind] in H
         end.

Lemma insert_raises env w obj e :
  insert env w obj = inr e -> e = SQLAlchemyError \/ e = ValueError.
Proof.
  unfold insert, raise, ret. intros H.
  destruct (db_fault env); try (left; congruence);
    case_insert H;
    repeat match goal with
           | Hb : bind_param _ _ = inr _ |- _ =>
             apply bind_param_raises in Hb; injection H as <-; exact Hb
           | Hc : column _ _ = inr _ |- _ =>
             apply column_raises in Hc; injection H as <-; left; exact Hc
           end;
    destruct (_ && _); left; congruence.
Qed.

Lemma insert_ok env w obj row w' :
  insert env w obj = inl (row, w') ->
  db_fault env <> ConnectFault
  /\ stored env 120 (t_destinatario obj) = inl (destinatario row)
  /\ stored env 200 (t_direccion obj) = inl (direccion row)
  /\ stored env 30 (with_default (PStr "Registrado") (t_estado obj)) = inl (estado row)
  /\ id row = seq w + Z.of_nat (skip env)
  /\ 1 <= id row <= int4_max
  /\ ~ In (id row) (map id (rows w))
  /\ fecha_registro row = Some (now env)
  /\ w' = {| rows := rows w ++ [row]; seq := id row + 1 |}.
Proof.
  unfold insert, raise, ret. intros H.
  assert (Hf : db_fault env <> ConnectFault) by (destruct (db_fault env); congruence).
  split; [exact Hf|].
  assert (H' :
    (p1 <- bind_param env (t_destinatario obj) ;;
     p2 <- bind_param env (t_direccion obj) ;;
     p3 <- bind_param env (with_default (PStr "Registrado") (t_estado obj)) ;;
     d <- column 120 p1 ;;
     a <- column 200 p2 ;;
     e <- column 30 p3 ;;
     if (1 <=? seq w + Z.of_nat (skip env))
        && (seq w + Z.of_nat (skip env) <=? int4_max)
        && negb (existsb (Z.eqb (seq w + Z.of_nat (skip env))) (map id (rows w)))
     then inl ({| id := seq w + Z.of_nat (skip env); destinatario := d;
                  direccion := a; estado := e;
                  fecha_registro := Some (now env) |},
               {| rows := rows w ++
                    [{| id := seq w + Z.of_nat (skip env); destinatario := d;
                        direccion := a; estado := e;
                        fecha_registro := Some (now env) |}];
                  seq := seq w + Z.of_nat (skip env) + 1 |})
     else inr SQLAlchemyError) = (inl (row, w') : py (Envio * Database)))
    by (destruct (db_fault env); first [contradiction | discriminate | exact H]).
  clear H. unfold stored.
  case_insert H'; try discriminate.
  destruct (_ && _) eqn:Hcond; try discriminate.
  apply andb_true_iff in Hcond as [Hcond Hfree].
  apply andb_true_iff in Hcond as [Hmin Hmax].
  apply Z.leb_le in Hmin, Hmax. apply negb_true_iff in Hfree.
  injection H' as <- <-. cbn [id destinatario direccion estado fecha_registro bind].
  repeat split; auto.
  intros Hin.
  assert (existsb (Z.eqb (seq w + Z.of_nat (skip env))) (map id (rows w)) = true).
  { apply existsb_exists. exists (seq w + Z.of_nat (skip env)).
    split; [exact Hin | apply Z.eqb_refl]. }
  congruence.
Qed.

Lemma insert_accepted env w obj d a e :
  db_fault env <> ConnectFault ->
  stored env 120 (t_destinatario obj) = inl d ->
  stored env 200 (t_direccion obj) = inl a ->
  stored env 30 (with_default (PStr "Registrado") (t_estado obj)) = inl e ->
  1 <= seq w + Z.of_nat (skip env) <= int4_max ->
  ~ In (seq w + Z.of_nat (skip env)) (map id (rows w)) ->
  let row := {| id := seq w + Z.of_nat (skip env); destinatario := d;
                direccion := a; estado := e; fecha_registro := Some (now env) |} in
  insert env w obj = inl (row, {| rows := rows w ++ [row]; seq := id row + 1 |}).
Proof.
  intros Hf H1 H2 H3 [Hmin Hmax] Hfree row.
  apply stored_split in H1 as (p1 & Hb1 & Hc1).
  apply stored_split in H2 as (p2 & Hb2 & Hc2).
  apply stored_split in H3 as (p3 & Hb3 & Hc3).
  unfold insert. rewrite Hb1, Hb2, Hb3. cbn [bind]. rewrite Hc1, Hc2, Hc3. cbn [bind].
  apply Z.leb_le in Hmin, Hmax. rewrite Hmin, Hmax.
  assert (Hex : existsb (Z.eqb (seq w + Z.of_nat (skip env))) (map id (rows w)) = false).
  { destruct (existsb _ _) eqn:Hex; [|reflexivity].
    apply existsb_exists in Hex as (x & Hin & Heq).
    apply Z.eqb_eq in Heq. subst x. contradiction. }
  rewrite Hex. cbn [andb negb].
  destruct (db_fault env); first [reflexivity | contradiction].
Qed.

(** When the driver sends the three values, the insert raises nothing but
    a [SQLAlchemyError]. *)
Lemma insert_sendable env w obj e :
  sendable env (t_destinatario obj) = true ->
  sendable env (t_direccion obj) = true ->
  sendable env (with_default (PStr "Registrado") (t_estado obj)) = true ->
  insert env w obj = inr e -> e = SQLAlchemyError.
Proof.
  unfold sendable, insert, raise, ret. intros S1 S2 S3 H.
  destruct (db_fault env); try congruence;
    case_insert H;
    repeat match goal with
           | Hb : bind_param _ _ = inr ?x |- _ =>
             injection H as <-;
             destruct (bind_param_raises _ _ _ Hb) as [-> | ->];
             [reflexivity | discriminate]
           | Hc : column _ _ = inr _ |- _ =>
             apply column_raises in Hc; injection H as <-; exact Hc
           end;
    try (destruct (_ && _); congruence).
Qed.

Lemma flush_raises env w objs e w' rest :
  flush env w objs = (inr e, w', rest) -> e = SQLAlchemyError \/ e = ValueError.
Proof.
  revert w e w' rest.
  induction objs as [|obj objs IH]; intros w e w' rest H; cbn in H.
  - discriminate.
  - destruct (insert env w obj) as [[row w1]|e1] eqn:Hi.
    + destruct (flush env w1 objs) as [[[new|e2] w2] rest2] eqn:Hfl.
      * discriminate.
      * injection H as <- <- <-. eapply IH; eauto.
    + injection H as <- <- <-. eapply insert_raises; eauto.
Qed.

Lemma session_commit_raises env s e s' :
  session_commit env s = (inr e, s') -> e = SQLAlchemyError \/ e = ValueError.
Proof.
  unfold session_commit.
  destruct (flush env (working s) (pending s)) as [[[new|e1] w] rest] eqn:Hfl.
  - destruct (db_fault env); intros H; inversion H; auto.
  - intros H; injection H as <- <-. eapply flush_raises; eauto.
Qed.

Lemma commit_single env db obj :
  session_commit env (session_add obj (begin db)) =
  match insert env db obj with
  | inl (row, w) =>
    match db_fault env with
    | CommitFault =>
      (inr SQLAlchemyError, {| store := db; working := w; pending := [] |})
    | CommitLost =>
      (inr SQLAlchemyError, {| store := w; working := w; pending := [] |})
    | _ => (inl [row], {| store := w; working := w; pending := [] |})
    end
  | inr e => (inr e, {| store := db; working := db; pending := [obj] |})
  end.
Proof.
  unfold session_commit, session_add, begin; cbn.
  destruct (insert env db obj) as [[row w]|e]; reflexivity.
Qed.

(** ** Validation and the paths of the create handler *)

Lemma missing_fields_dict d :
  missing_fields required (PDict d) = inl (absent_fields d).
Proof.
  unfold absent_fields, required; cbn.
  destruct (lookup "destinatario" d), (lookup "direccion" d); reflexivity.
Qed.

Lemma falsy_or_dict j :
  truthy j = false -> py_or j (PDict []) = PDict [].
Proof. unfold py_or; intros ->; reflexivity. Qed.

Lemma serve_crear_absent env req db j d :
  request_json env req = inl j ->
  py_or j (PDict []) = PDict d ->
  absent_fields d <> [] ->
  serve env (CrearEnvio req) db =
  (inl (error ("Faltan campos obligatorios: " ++ join ", " (absent_fields d)) 400), db).
Proof.
  intros Hj Hd Hm. unfold serve, handle, crear_envio. rewrite Hj. cbv zeta.
  rewrite Hd, missing_fields_dict.
  destruct (absent_fields d); [contradiction | reflexivity].
Qed.

(** On a body that holds both required keys the create handler is decided
    by the insert and the fault. *)
Lemma serve_crear_present env req db j d v1 v2 :
  request_json env req = inl j ->
  py_or j (PDict []) = PDict d ->
  lookup "destinatario" d = Some v1 ->
  lookup "direccion" d = Some v2 ->
  serve env (CrearEnvio req) db =
  match insert env db (envio_of d v1 v2) with
  | inl (row, w) =>
    match db_fault env with
    | CommitFault => (inl (error "Error al guardar en la base de datos" 500), db)
    | CommitLost | ReloadFault =>
      (inl (error "Error al guardar en la base de datos" 500), w)
    | _ => (inl (ok (to_dict row) 201), w)
    end
  | inr ValueError => (inr ValueError, db)
  | inr _ => (inl (error "Error al guardar en la base de datos" 500), db)
  end.
Proof.
  intros Hj Hd H1 H2. unfold serve, handle, crear_envio. rewrite Hj. cbv zeta.
  rewrite Hd, missing_fields_dict. unfold absent_fields. rewrite H1, H2.
  unfold new_envio, py_getitem, py_get, bind, ret. rewrite H1, H2.
  fold (envio_of d v1 v2). rewrite commit_single.
  destruct (insert env db (envio_of d v1 v2)) as [[row w]|e] eqn:Hi.
  - unfold reload. destruct (db_fault env); reflexivity.
  - destruct (insert_raises _ _ _ _ Hi) as [-> | ->]; reflexivity.
Qed.

Lemma py_or_not_dict j data :
  py_or j (PDict []) = data ->
  (forall d, data <> PDict d) ->
  j = data /\ truthy j = true.
Proof.
  unfold py_or. destruct (truthy j); intros <- H; [auto|].
  exfalso. now apply (H []).
Qed.

(** The create handler takes one of the paths of [crear_result]. *)
Lemma serve_crear_cases env req db :
  crear_result env req db (fst (serve env (CrearEnvio req) db))
                          (snd (serve env (CrearEnvio req) db)).
Proof.
  destruct (request_json env req) as [j|e] eqn:Hj.
  2:{ unfold serve, handle, crear_envio. rewrite Hj. cbn.
      now apply CrearAborted. }
  destruct (py_or j (PDict [])) as [ | b | n | f | s | l | d ] eqn:Hd.
  1-4: (unfold serve, handle, crear_envio; rewrite Hj; cbv zeta; rewrite Hd; cbn;
        destruct (py_or_not_dict _ _ Hd) as [-> Ht]; [discriminate|];
        apply (CrearTypeError _ _ _ _ Hj Ht); discriminate).
  - (* a string: the fields are looked for as substrings *)
    destruct (py_or_not_dict _ _ Hd) as [Hs Ht]; [discriminate|].
    unfold serve, handle, crear_envio. rewrite Hj. cbv zeta. rewrite Hd.
    destruct (missing_fields required (PStr s)) as [[|x xs]|e] eqn:Hm.
    + cbn. subst j. apply (CrearTypeError _ _ _ _ Hj Ht). discriminate.
    + cbn [fst snd begin store].
      eapply CrearInvalid; [exact Hj | rewrite Hd; exact Hm | discriminate].
    + cbn in Hm. unfold bind, ret in Hm. discriminate.
  - (* a list: the fields are looked for among its elements *)
    destruct (py_or_not_dict _ _ Hd) as [Hs Ht]; [discriminate|].
    unfold serve, handle, crear_envio. rewrite Hj. cbv zeta. rewrite Hd.
    destruct (missing_fields required (PList l)) as [[|x xs]|e] eqn:Hm.
    + cbn. subst j. apply (CrearTypeError _ _ _ _ Hj Ht). discriminate.
    + cbn [fst snd begin store].
      eapply CrearInvalid; [exact Hj | rewrite Hd; exact Hm | discriminate].
    + cbn in Hm. unfold bind, ret in Hm. discriminate.
  - (* an object *)
    destruct (absent_fields d) as [|x xs] eqn:Ha.
    + unfold absent_fields in Ha.
      destruct (lookup "destinatario" d) as [v1|] eqn:H1;
        destruct (lookup "direccion" d) as [v2|] eqn:H2; try discriminate.
      rewrite (serve_crear_present _ _ _ _ _ _ _ Hj Hd H1 H2).
      destruct (insert env db (envio_of d v1 v2)) as [[row w]|e] eqn:Hi.
      * destruct (db_fault env) eqn:Hf; cbn [fst snd].
        -- eapply CrearCreated; eauto.
        -- apply insert_ok in Hi as (Hc & _). contradiction.
        -- eapply CrearFailed; eauto.
        -- eapply CrearLate; eauto. unfold late_fault. now rewrite Hf.
        -- eapply CrearLate; eauto. unfold late_fault. now rewrite Hf.
      * destruct (insert_raises _ _ _ _ Hi) as [-> | ->]; cbn [fst snd].
        -- eapply CrearFailed; eauto.
        -- eapply CrearUnsendable; eauto.
    + assert (Hne : absent_fields d <> []) by (rewrite Ha; discriminate).
      rewrite (serve_crear_absent _ _ _ _ _ Hj Hd Hne). cbn [fst snd].
      eapply CrearInvalid; [exact Hj | rewrite Hd; apply missing_fields_dict | exact Hne].
Qed.

(** ** Keys and runs *)

Lemma returned_id_created row :
  returned_id (inl (ok (to_dict row) 201)) = Some (id row).
Proof. reflexivity. Qed.

Lemma created_object_created row :
  created_object (inl (ok (to_dict row) 201)) = Some (to_dict row).
Proof. reflexivity. Qed.

Lemma app_one_neq {A : Type} (l : list A) (a : A) : (l ++ [a])%list <> l.
Proof.
  intros H. apply (f_equal (@List.length A)) in H.
  rewrite length_app in H. cbn in H. lia.
Qed.

(** A request that is not a create leaves the table as it was and returns
    no 201. *)
Lemma serve_read_only env c db :
  is_create c = false ->
  snd (serve env c db) = db
  /\ returned_id (fst (serve env c db)) = None
  /\ created_object (fst (serve env c db)) = None.
Proof.
  intros Hc. destruct c as [ | | i | req ]; unfold serve, handle; cbn.
  - auto.
  - auto.
  - destruct (i <? 0); [cbn; auto|].
    unfold obtener_envio. destruct (query_get i (begin db)); cbn; auto.
  - discriminate.
Qed.

(** Every request either leaves the table as it was and returns no 201, or
    stores one row; the row is returned with status 201, unless the
    connection is lost once the server has committed: then the answer is
    the 500 envelope. *)
Lemma serve_step env c db :
  (snd (serve env c db) = db
   /\ returned_id (fst (serve env c db)) = None
   /\ created_object (fst (serve env c db)) = None
   /\ forall data, fst (serve env c db) <> inl (ok data 201))
  \/ exists row,
       snd (serve env c db) = {| rows := rows db ++ [row]; seq := id row + 1 |}
       /\ (exists req, c = CrearEnvio req)
       /\ ~ In (id row) (map id (rows db))
       /\ id row = seq db + Z.of_nat (skip env)
       /\ 1 <= id row <= int4_max
       /\ fecha_registro row = Some (now env)
       /\ ((fst (serve env c db) = inl (ok (to_dict row) 201)
            /\ db_fault env = NoFault)
           \/ (fst (serve env c db) =
                 inl (error "Error al guardar en la base de datos" 500)
               /\ late_fault env = true)).
Proof.
  destruct c as [ | | i | req ].
  1-3: match goal with
       | |- context [serve ?e ?c ?d] =>
         left; destruct (serve_read_only e c d eq_refl) as (-> & -> & ->);
         repeat split; auto; intros data H;
         pose proof (f_equal created_object H) as H';
         destruct (serve_read_only e c d eq_refl) as (_ & _ & Hr);
         rewrite Hr in H'; discriminate H'
       end.
  pose proof (serve_crear_cases env req db) as Hc.
  destruct (serve env (CrearEnvio req) db) as [r db']. cbn [fst snd] in *.
  inversion Hc; subst.
  - left. repeat split; auto. intros data H'. discriminate.
  - left. repeat split; auto. intros data H'. discriminate.
  - left. repeat split; auto. intros data H'. discriminate.
  - left. repeat split; auto. intros data H'. discriminate.
  - left. repeat split; auto. intros data H'. discriminate.
  - right.
    match goal with H : insert _ _ _ = inl _ |- _ => apply insert_ok in H as Hi end.
    destruct Hi as (_ & _ & _ & _ & Hid & Hrange & Hfree & Hfecha & ->).
    exists row. repeat split; eauto; try lia.
  - right.
    match goal with H : insert _ _ _ = inl _ |- _ => apply insert_ok in H as Hi end.
    destruct Hi as (_ & _ & _ & _ & Hid & Hrange & Hfree & Hfecha & ->).
    exists row. repeat split; eauto; try lia.
Qed.

Lemma serve_keys env c db :
  keys_below_seq db ->
  keys_below_seq (snd (serve env c db))
  /\ seq db <= seq (snd (serve env c db))
  /\ (forall n, returned_id (fst (serve env c db)) = Some n ->
                seq db <= n < seq (snd (serve env c db))).
Proof.
  intros Hk.
  destruct (serve_step env c db)
    as [(-> & -> & _) | (row & -> & _ & _ & Hid & _ & _ & Hr)].
  - repeat split; [exact Hk | lia | discriminate | discriminate].
  - cbn [rows seq]. unfold keys_below_seq in *. cbn [rows seq].
    split; [|split; [lia|]].
    + apply Forall_app. split.
      * eapply Forall_impl; [|exact Hk]. cbn. intros; lia.
      * constructor; [lia | constructor].
    + intros n Hn. destruct Hr as [[Hr _] | [Hr _]]; rewrite Hr in Hn.
      * rewrite returned_id_created in Hn. injection Hn as <-. lia.
      * discriminate.
Qed.

Lemma run_keys cs : forall db rs db',
  keys_below_seq db ->
  run cs db = (rs, db') ->
  keys_below_seq db' /\ seq db <= seq db'
  /\ Forall (fun n => seq db <= n < seq db') (returned_ids rs).
Proof.
  induction cs as [|[env c] cs IH]; intros db rs db' Hk Hr; cbn in Hr.
  - injection Hr as <- <-. repeat split; [exact Hk | lia | constructor].
  - destruct (serve_keys env c db Hk) as (Hk1 & Hle1 & Hid1).
    destruct (serve env c db) as [r db1]; cbn [fst snd] in *.
    destruct (run cs db1) as [rs2 db2] eqn:Hr2.
    injection Hr as <- <-.
    destruct (IH _ _ _ Hk1 Hr2) as (Hk2 & Hle2 & Hids).
    repeat split; [exact Hk2 | lia |].
    cbn. destruct (returned_id r) as [n|].
    + constructor; [specialize (Hid1 n eq_refl); lia|].
      eapply Forall_impl; [|exact Hids]. cbn; intros; lia.
    + eapply Forall_impl; [|exact Hids]. cbn; intros; lia.
Qed.

Lemma keys_below_seq_create_all : keys_below_seq create_all.
Proof. constructor. Qed.

Lemma keys_below_seq_fresh db n :
  keys_below_seq db -> seq db <= n -> ~ In n (map id (rows db)).
Proof.
  unfold keys_below_seq. intros Hk Hn Hin.
  apply in_map_iff in Hin as (e & He & Hin).
  rewrite Forall_forall in Hk. specialize (Hk e Hin). lia.
Qed.

(** ** Creation *)

(** C1, as the code has it: a create request whose body is an object with
    a string [destinatario] of at most 120 characters and a string
    [direccion] of at most 200 characters (empty or not), whose [estado],
    when supplied, is a string of at most 30 characters, none of them
    holding a character the driver cannot send (U+0000, a lone surrogate),
    and whose insert meets no connection fault and no exhausted key
    sequence, is answered with status 201 and the success envelope of the
    created record: its [id] is the next key, a positive integer that is
    new (among the keys of the table and among the ids returned since
    [create_all]), its [destinatario] and [direccion] are the supplied
    ones, its [estado] is the supplied one, or "Registrado" when the body
    omits it, and its [fecha_registro] is the server's [now()]; the record
    is added to the table. *)
Theorem crear_envio_created :
  forall cs rs db env req j d dest dir,
    run cs create_all = (rs, db) ->
    request_json env req = inl j ->
    py_or j (PDict []) = PDict d ->
    lookup "destinatario" d = Some (PStr dest) ->
    lookup "direccion" d = Some (PStr dir) ->
    encodable dest = true ->
    encodable dir = true ->
    (char_length dest <= 120)%nat ->
    (char_length dir <= 200)%nat ->
    (forall v, lookup "estado" d = Some v ->
       exists st, v = PStr st /\ encodable st = true /\ (char_length st <= 30)%nat) ->
    db_fault env = NoFault ->
    seq db + Z.of_nat (skip env) <= int4_max ->
    serve env (CrearEnvio req) db =
      (inl (success_body
              (shipment_body (seq db + Z.of_nat (skip env)) dest dir
                 (match lookup "estado" d with
                  | Some (PStr st) => st
                  | _ => "Registrado"
                  end)
                 (str_datetime (now env))),
            201),
       {| rows := rows db ++
                  [{| id := seq db + Z.of_nat (skip env);
                      destinatario := dest;
                      direccion := dir;
                      estado := match lookup "estado" d with
                                | Some (PStr st) => st
                                | _ => "Registrado"
                                end;
                      fecha_registro := Some (now env) |}];
          seq := seq db + Z.of_nat (skip env) + 1 |})
    /\ 1 <= seq db + Z.of_nat (skip env)
    /\ ~ In (seq db + Z.of_nat (skip env)) (returned_ids rs)
    /\ ~ In (seq db + Z.of_nat (skip env)) (map id (rows db)).
Proof.
  intros cs rs db env req j d dest dir Hrun Hj Hd H1 H2 He1 He2 Hl1 Hl2 Hst Hf Hmax.
  destruct (run_keys cs _ _ _ keys_below_seq_create_all Hrun) as (Hk & Hseq & Hids).
  unfold create_all in Hseq. cbn [seq] in Hseq.
  set (st := match lookup "estado" d with
             | Some (PStr st) => st
             | _ => "Registrado"
             end).
  assert (He : stored env 30
                 (with_default (PStr "Registrado") (t_estado (envio_of d (PStr dest) (PStr dir))))
               = inl st).
  { unfold envio_of, st; cbn [t_estado].
    destruct (lookup "estado" d) as [v|] eqn:Hv.
    - destruct (Hst v eq_refl) as (s & -> & Hes & Hl). cbn [with_default].
      now apply stored_string.
    - cbn [with_default]. apply stored_string; [reflexivity | apply Nat.leb_le; reflexivity]. }
  assert (Hfree : ~ In (seq db + Z.of_nat (skip env)) (map id (rows db)))
    by (apply keys_below_seq_fresh; [exact Hk | lia]).
  assert (Hconn : db_fault env <> ConnectFault) by congruence.
  assert (Hrange : 1 <= seq db + Z.of_nat (skip env) <= int4_max) by lia.
  pose proof (insert_accepted env db (envio_of d (PStr dest) (PStr dir)) dest dir st
                Hconn (stored_string env _ _ He1 Hl1) (stored_string env _ _ He2 Hl2)
                He Hrange Hfree) as Hi.
  cbv zeta in Hi.
  split; [|split; [lia | split; [|exact Hfree]]].
  - rewrite (serve_crear_present _ _ _ _ _ _ _ Hj Hd H1 H2), Hi, Hf. reflexivity.
  - intros Hin. rewrite Forall_forall in Hids. specialize (Hids _ Hin). lia.
Qed.

(** The specification's scenario: Ana Gomez, Calle 1, on the empty table. *)
Lemma crear_envio_created_witness :
  serve env0 (CrearEnvio (post ana)) create_all =
    (inl (success_body
            (shipment_body 1 "Ana Gomez" "Calle 1" "Registrado"
               "2024-03-07 09:05:00.000120"),
          201),
     {| rows := [ana_row]; seq := 2 |})
  /\ 1 <= 1
  /\ ~ In 1 (returned_ids [])
  /\ ~ In 1 (map id (rows create_all)).
Proof.
  apply (crear_envio_created [] [] create_all env0 (post ana) ana
           [("destinatario", PStr "Ana Gomez"); ("direccion", PStr "Calle 1")]
           "Ana Gomez" "Calle 1").
  - reflexivity.
  - reflexivity.
  - reflexivity.
  - reflexivity.
  - reflexivity.
  - reflexivity.
  - reflexivity.
  - apply Nat.leb_le; reflexivity.
  - apply Nat.leb_le; reflexivity.
  - cbn; discriminate.
  - reflexivity.
  - cbn; unfold int4_max; lia.
Defined.

(** C1, as stated, fails: a recipient that is not empty but longer than the
    120 characters of its column is refused by the insert, and the request
    is answered with the 500 envelope. *)
Lemma crear_envio_long_recipient :
  char_length long_name = 121%nat
  /\ all_spaces (drop_chars 120 long_name) = false
  /\ serve env0 (CrearEnvio (post long_recipient)) create_all =
     (inl (error_body "Error al guardar en la base de datos", 500), create_all).
Proof. repeat split. Qed.

(** A recipient of 61 characters of two bytes each is within its column. *)
Example crear_envio_two_byte_characters :
  String.length enyes = 122%nat
  /\ char_length enyes = 61%nat
  /\ serve env0
       (CrearEnvio (post (PDict [("destinatario", PStr enyes);
                                 ("direccion", PStr "Calle 1")])))
       create_all =
     (inl (success_body
             (shipment_body 1 enyes "Calle 1" "Registrado"
                "2024-03-07 09:05:00.000120"),
           201),
      {| rows := [{| id := 1; destinatario := enyes; direccion := "Calle 1";
                     estado := "Registrado"; fecha_registro := Some t0 |}];
         seq := 2 |}).
Proof. repeat split. Qed.

(** A status of 30 characters followed by a space is cut at 30 and
    stored. *)
Example crear_envio_trailing_space :
  serve env0
    (CrearEnvio
       (post (PDict [("destinatario", PStr "Ana Gomez"); ("direccion", PStr "Calle 1");
                     ("estado", PStr (String.concat "" (repeat "x" 30%nat) ++ " "))])))
    create_all =
  (inl (success_body
          (shipment_body 1 "Ana Gomez" "Calle 1" (String.concat "" (repeat "x" 30%nat))
             "2024-03-07 09:05:00.000120"),
        201),
   {| rows := [{| id := 1; destinatario := "Ana Gomez"; direccion := "Calle 1";
                  estado := String.concat "" (repeat "x" 30%nat);
                  fecha_registro := Some t0 |}];
      seq := 2 |}).
Proof. reflexivity. Qed.

(** The connection is lost at the reload of line 116: the record is stored
    and the request is answered with the 500 envelope. *)
Example crear_envio_reload_fault :
  serve env_reload_fault (CrearEnvio (post ana)) create_all =
  (inl (error_body "Error al guardar en la base de datos", 500),
   {| rows := [ana_row]; seq := 2 |}).
Proof. reflexivity. Qed.

(** ** Missing fields *)

(** C2, as the code has it: a create request whose body is a JSON object
    (or a falsy value, taken as the empty object) that lacks
    [destinatario], [direccion] or both is answered with status 400 and the
    error envelope whose message is "Faltan campos obligatorios: " followed
    by the absent fields, all of them and only them, separated by ", "; the
    table is left as it was. *)
Theorem crear_envio_missing_fields :
  forall env req db j d,
    request_json env req = inl j ->
    py_or j (PDict []) = PDict d ->
    lookup "destinatario" d = None \/ lookup "direccion" d = None ->
    serve env (CrearEnvio req) db =
      (inl (error_body
              ("Faltan campos obligatorios: " ++
               match lookup "destinatario" d, lookup "direccion" d with
               | None, None => "destinatario, direccion"
               | None, Some _ => "destinatario"
               | _, _ => "direccion"
               end),
            400),
       db).
Proof.
  intros env req db j d Hj Hd Hm.
  assert (Hne : absent_fields d <> []).
  { unfold absent_fields.
    destruct (lookup "destinatario" d), (lookup "direccion" d);
      destruct Hm; congruence. }
  rewrite (serve_crear_absent _ _ _ _ _ Hj Hd Hne).
  unfold absent_fields.
  destruct (lookup "destinatario" d), (lookup "direccion" d);
    destruct Hm; try discriminate; reflexivity.
Qed.

(** The specification's scenario: the address is omitted and is the one
    field the message names. *)
Lemma crear_envio_missing_fields_witness :
  serve env0 (CrearEnvio (post only_recipient)) create_all =
  (inl (error_body "Faltan campos obligatorios: direccion", 400), create_all).
Proof.
  exact (crear_envio_missing_fields env0 (post only_recipient) create_all
           only_recipient [("destinatario", PStr "Ana Gomez")]
           eq_refl eq_refl (or_intror eq_refl)).
Defined.

(** C2, as stated, fails: a body that is a JSON number holds neither
    field, and the request is not answered 400: the membership test of
    line 102 raises [TypeError]; a body that is the JSON string
    "destinatario" holds neither field either, and the message names
    [direccion] only. *)
Lemma crear_envio_number_body :
  serve env0 (CrearEnvio (post (PInt 5))) create_all = (inr TypeError, create_all)
  /\ serve env0 (CrearEnvio (post (PStr "destinatario"))) create_all =
     (inl (error_body "Faltan campos obligatorios: direccion", 400), create_all).
Proof. split; reflexivity. Qed.

(** ** Lookup by id *)

Lemma query_get_none i s :
  query_get i s = None <-> forall e, In e (rows (working s)) -> id e <> i.
Proof.
  unfold query_get. split.
  - intros H e Hin Heq.
    pose proof (find_none _ _ H e Hin) as Hn. cbn in Hn.
    apply Z.eqb_neq in Hn. contradiction.
  - intros H. destruct (find _ _) as [e|] eqn:Hf; [|reflexivity].
    apply find_some in Hf as [Hin Heq]. apply Z.eqb_eq in Heq.
    now destruct (H e Hin).
Qed.

Lemma query_get_some i s e :
  query_get i s = Some e -> In e (rows (working s)) /\ id e = i.
Proof.
  unfold query_get. intros H. apply find_some in H as [Hin Heq].
  apply Z.eqb_eq in Heq. auto.
Qed.

Lemma query_get_unique i s e :
  NoDup (map id (rows (working s))) ->
  In e (rows (working s)) -> id e = i ->
  query_get i s = Some e.
Proof.
  unfold query_get. induction (rows (working s)) as [|x xs IH]; intros Hnd Hin Heq.
  - destruct Hin.
  - cbn in Hnd. inversion Hnd as [|? ? Hx Hxs]; subst. cbn.
    destruct (id x =? id e) eqn:Hxe.
    + apply Z.eqb_eq in Hxe. destruct Hin as [->|Hin]; [reflexivity|].
      exfalso. apply Hx. rewrite Hxe. now apply in_map.
    + destruct Hin as [->|Hin]; [rewrite Z.eqb_refl in Hxe; discriminate|].
      now apply IH.
Qed.

Lemma serve_obtener env i db :
  0 <= i ->
  serve env (ObtenerEnvio i) db =
  (match query_get i (begin db) with
   | None => inl (error "Envío no encontrado" 404)
   | Some e => inl (ok (to_dict e) 200)
   end, db).
Proof.
  intros Hi. unfold serve, handle, obtener_envio.
  apply Z.ltb_ge in Hi. rewrite Hi.
  destruct (query_get i (begin db)); reflexivity.
Qed.

(** C3, as the code has it: for every integer [i] that is not negative,
    GET /envios/i is answered with status 404 and the error envelope
    "Envío no encontrado" exactly when no row of the table has the key [i];
    otherwise it is answered with status 200 and the success envelope of a
    row of the table whose key is [i], with its five fields; under the
    primary key that row is the only one.  The table is never changed. *)
Theorem obtener_envio_found_or_404 :
  forall env i db,
    0 <= i ->
    ((forall e, In e (rows db) -> id e <> i) <->
     serve env (ObtenerEnvio i) db =
       (inl (error_body "Envío no encontrado", 404), db))
    /\ ((forall e, In e (rows db) -> id e <> i)
        \/ exists e,
             In e (rows db) /\ id e = i
             /\ serve env (ObtenerEnvio i) db =
                (inl (success_body
                        (shipment_body (id e) (destinatario e) (direccion e) (estado e)
                           (match fecha_registro e with
                            | Some t => str_datetime t
                            | None => "None"
                            end)),
                      200),
                 db))
    /\ (NoDup (map id (rows db)) ->
        forall e, In e (rows db) -> id e = i ->
          serve env (ObtenerEnvio i) db =
            (inl (success_body
                    (shipment_body (id e) (destinatario e) (direccion e) (estado e)
                       (match fecha_registro e with
                        | Some t => str_datetime t
                        | None => "None"
                        end)),
                  200),
             db)).
Proof.
  intros env i db Hi. rewrite (serve_obtener env i db Hi).
  destruct (query_get i (begin db)) as [e|] eqn:Hq.
  - pose proof (query_get_some _ _ _ Hq) as [Hin Heq]. cbn in Hin.
    repeat split.
    + intros H. now destruct (H e Hin).
    + intros H. discriminate.
    + right. exists e. auto.
    + intros Hnd e' Hin' Heq'.
      rewrite (query_get_unique i (begin db) e' Hnd Hin' Heq') in Hq.
      now injection Hq as ->.
  - pose proof (proj1 (query_get_none i (begin db)) Hq) as Hn. cbn in Hn.
    repeat split; auto.
    intros Hnd e Hin Heq. now destruct (Hn e Hin).
Qed.

(** The specification's scenario on the table that holds Ana Gomez: no row
    has the key 999999; the row with the key 1 is hers. *)
Lemma obtener_envio_found_or_404_witness :
  serve env0 (ObtenerEnvio 999999) {| rows := [ana_row]; seq := 2 |} =
    (inl (error_body "Envío no encontrado", 404), {| rows := [ana_row]; seq := 2 |})
  /\ serve env0 (ObtenerEnvio 1) {| rows := [ana_row]; seq := 2 |} =
    (inl (success_body
            (shipment_body 1 "Ana Gomez" "Calle 1" "Registrado"
               "2024-03-07 09:05:00.000120"),
          200),
     {| rows := [ana_row]; seq := 2 |}).
Proof.
  split.
  - apply (proj1 (obtener_envio_found_or_404 env0 999999
                    {| rows := [ana_row]; seq := 2 |} ltac:(lia))).
    intros e [<- | []]. discriminate.
  - apply (proj2 (proj2 (obtener_envio_found_or_404 env0 1
                           {| rows := [ana_row]; seq := 2 |} ltac:(lia)))
             ltac:(repeat constructor; intros []) ana_row).
    + left. reflexivity.
    + reflexivity.
Defined.

(** C3, as stated, fails: no record has the id -1, and GET /envios/-1 is
    not answered with the error envelope: the route does not match, the
    handler is not called and the framework answers with its own 404. *)
Lemma obtener_envio_negative_id :
  (forall e, In e (rows create_all) -> id e <> -1)
  /\ serve env0 (ObtenerEnvio (-1)) create_all = (inr NotFound, create_all).
Proof. split; [intros e [] | reflexivity]. Qed.

(** ** Failure of the insert *)

(** C4, as the code has it: when the commit of a create request raises
    before the server has committed, nothing is persisted.  If what it
    raises is a [SQLAlchemyError] (a constraint of the table, a value too
    long, a connection that fails at the INSERT or at COMMIT), the handler
    rolls the session back to the committed state and answers with status
    500 and the error envelope "Error al guardar en la base de datos".  If
    it is the driver's [ValueError], the handler does not catch it: the
    exception crosses the handler and no envelope is produced. *)
Theorem crear_envio_insert_failure :
  forall env req db j envio e s',
    request_json env req = inl j ->
    missing_fields required (py_or j (PDict [])) = inl [] ->
    new_envio (py_or j (PDict [])) = inl envio ->
    session_commit env (session_add envio (begin db)) = (inr e, s') ->
    store s' = db ->
    (e = SQLAlchemyError
     /\ crear_envio env req (begin db) =
        (inl (error_body "Error al guardar en la base de datos", 500), begin db)
     /\ serve env (CrearEnvio req) db =
        (inl (error_body "Error al guardar en la base de datos", 500), db))
    \/ (e = ValueError
        /\ serve env (CrearEnvio req) db = (inr ValueError, db)).
Proof.
  intros env req db j envio e s' Hj Hm He Hc Hs.
  destruct (session_commit_raises _ _ _ _ Hc) as [-> | ->].
  - left. split; [reflexivity|].
    assert (H : crear_envio env req (begin db) =
                (inl (error "Error al guardar en la base de datos" 500), begin db)).
    { unfold crear_envio. rewrite Hj. cbv zeta. rewrite Hm, He, Hc.
      unfold session_rollback, begin. now rewrite Hs. }
    split; [exact H|].
    unfold serve, handle. now rewrite H.
  - right. split; [reflexivity|].
    unfold serve, handle, crear_envio. rewrite Hj. cbv zeta. rewrite Hm, He, Hc.
    now rewrite Hs.
Qed.

(** The connection is lost at COMMIT, before the server commits: the row
    was written inside the transaction, and the handler leaves a clean
    session on the empty table. *)
Lemma crear_envio_insert_failure_witness :
  working (snd (session_commit env_commit_fault
                  (session_add (envio_of [] (PStr "Ana Gomez") (PStr "Calle 1"))
                     (begin create_all)))) =
    {| rows := [ana_row]; seq := 2 |}
  /\ crear_envio env_commit_fault (post ana) (begin create_all) =
       (inl (error_body "Error al guardar en la base de datos", 500), begin create_all)
  /\ serve env_commit_fault (CrearEnvio (post ana)) create_all =
       (inl (error_body "Error al guardar en la base de datos", 500), create_all).
Proof.
  split; [reflexivity|].
  destruct (crear_envio_insert_failure env_commit_fault (post ana) create_all ana
              (envio_of [] (PStr "Ana Gomez") (PStr "Calle 1")) SQLAlchemyError
              {| store := create_all;
                 working := {| rows := [ana_row]; seq := 2 |};
                 pending := [] |}
              eq_refl eq_refl eq_refl eq_refl eq_refl)
    as [(_ & H) | (H & _)].
  - exact H.
  - discriminate H.
Defined.

(** C4, as stated, fails: for a recipient that holds the character U+0000
    the insert fails in the driver with a [ValueError], which the handler
    does not catch: nothing is persisted, and no error envelope is
    returned. *)
Lemma crear_envio_nul_recipient :
  has_nul nul_name = true
  /\ fst (session_commit env0
            (session_add (envio_of [] (PStr nul_name) (PStr "Calle 1"))
               (begin create_all))) = inr ValueError
  /\ serve env0 (CrearEnvio (post nul_recipient)) create_all =
     (inr ValueError, create_all).
Proof. repeat split. Qed.

(** ** What validation checks *)

Lemma insert_null env db obj :
  sendable env (t_destinatario obj) = true ->
  sendable env (t_direccion obj) = true ->
  sendable env (with_default (PStr "Registrado") (t_estado obj)) = true ->
  t_destinatario obj = PNone \/ t_direccion obj = PNone ->
  insert env db obj = inr SQLAlchemyError.
Proof.
  intros S1 S2 S3 H.
  destruct (insert env db obj) as [[row w]|e] eqn:Hi.
  - apply insert_ok in Hi as (_ & H1 & H2 & _).
    apply stored_ok in H1 as [H1 _]. apply stored_ok in H2 as [H2 _].
    destruct H; contradiction.
  - f_equal. eapply insert_sendable; eauto.
Qed.

(** C5, as the code has it: validation checks that [destinatario] and
    [direccion] are keys of the object body, and nothing about their
    values.  It reports no field exactly when both keys are present; a body
    lacking one is answered with status 400 and the error envelope naming
    the absent fields; a body holding both passes, whatever the values: it
    is never answered 400, but 201, or the 500 envelope when the insert
    fails, or with no envelope when the driver raises [ValueError].  In
    particular a null [destinatario] or [direccion], when the driver can
    send the other values, passes validation and is refused by the NOT NULL
    constraint of its column: status 500 and the error envelope "Error al
    guardar en la base de datos", the table left as it was. *)
Theorem validation_checks_presence :
  forall env req db j d,
    request_json env req = inl j ->
    py_or j (PDict []) = PDict d ->
    (missing_fields required (PDict d) = inl [] <->
     exists v1 v2, lookup "destinatario" d = Some v1 /\ lookup "direccion" d = Some v2)
    /\ (lookup "destinatario" d = None \/ lookup "direccion" d = None ->
        serve env (CrearEnvio req) db =
        (inl (error_body
                ("Faltan campos obligatorios: " ++
                 match lookup "destinatario" d, lookup "direccion" d with
                 | None, None => "destinatario, direccion"
                 | None, Some _ => "destinatario"
                 | _, _ => "direccion"
                 end),
              400),
         db))
    /\ (forall v1 v2,
          lookup "destinatario" d = Some v1 -> lookup "direccion" d = Some v2 ->
          (exists data db',
             serve env (CrearEnvio req) db = (inl (success_body data, 201), db'))
          \/ (exists db',
                serve env (CrearEnvio req) db =
                (inl (error_body "Error al guardar en la base de datos", 500), db'))
          \/ serve env (CrearEnvio req) db = (inr ValueError, db))
    /\ (forall v1 v2,
          lookup "destinatario" d = Some v1 -> lookup "direccion" d = Some v2 ->
          v1 = PNone \/ v2 = PNone ->
          sendable env v1 = true -> sendable env v2 = true ->
          sendable env
            (with_default (PStr "Registrado")
               (match lookup "estado" d with
                | Some v => v
                | None => PStr "Registrado"
                end)) = true ->
          serve env (CrearEnvio req) db =
          (inl (error_body "Error al guardar en la base de datos", 500), db)).
Proof.
  intros env req db j d Hj Hd. repeat split.
  - rewrite missing_fields_dict. unfold absent_fields.
    destruct (lookup "destinatario" d) as [v1|], (lookup "direccion" d) as [v2|];
      intros H; try discriminate. eauto.
  - intros (v1 & v2 & H1 & H2). rewrite missing_fields_dict. unfold absent_fields.
    now rewrite H1, H2.
  - intros H.
    assert (Hne : absent_fields d <> []).
    { unfold absent_fields.
      destruct (lookup "destinatario" d), (lookup "direccion" d);
        destruct H; congruence. }
    rewrite (serve_crear_absent _ _ _ _ _ Hj Hd Hne). unfold absent_fields.
    destruct (lookup "destinatario" d), (lookup "direccion" d);
      destruct H; try discriminate; reflexivity.
  - intros v1 v2 H1 H2.
    rewrite (serve_crear_present _ _ _ _ _ _ _ Hj Hd H1 H2).
    destruct (insert env db _) as [[row w]|e] eqn:Hi.
    + destruct (db_fault env).
      * left. exists (to_dict row), w. reflexivity.
      * left. exists (to_dict row), w. reflexivity.
      * right. left. exists db. reflexivity.
      * right. left. exists w. reflexivity.
      * right. left. exists w. reflexivity.
    + destruct (insert_raises _ _ _ _ Hi) as [-> | ->].
      * right. left. exists db. reflexivity.
      * right. right. reflexivity.
  - intros v1 v2 H1 H2 Hnull S1 S2 S3.
    rewrite (serve_crear_present _ _ _ _ _ _ _ Hj Hd H1 H2).
    now rewrite (insert_null env db (envio_of d v1 v2) S1 S2 S3 Hnull).
Qed.

(** A null recipient: validation passes and the insert is refused. *)
Lemma validation_checks_presence_witness :
  serve env0 (CrearEnvio (post null_recipient)) create_all =
  (inl (error_body "Error al guardar en la base de datos", 500), create_all).
Proof.
  exact (proj2 (proj2 (proj2
           (validation_checks_presence env0 (post null_recipient) create_all
              null_recipient
              [("destinatario", PNone); ("direccion", PStr "Calle 1")]
              eq_refl eq_refl)))
           PNone (PStr "Calle 1") eq_refl eq_refl (or_introl eq_refl)
           eq_refl eq_refl eq_refl).
Defined.

(** C5, as stated, fails: a body whose [destinatario] is null passes
    validation (no field is reported missing) and the request is answered
    with status 500, not 400. *)
Lemma crear_envio_null_recipient :
  lookup "destinatario" [("destinatario", PNone); ("direccion", PStr "Calle 1")]
    = Some PNone
  /\ missing_fields required null_recipient = inl []
  /\ serve env0 (CrearEnvio (post null_recipient)) create_all =
     (inl (error_body "Error al guardar en la base de datos", 500), create_all).
Proof. repeat split. Qed.

(** ** What a persisted record holds *)

(** C6, as the code has it: a create request persists a record only when
    its body holds both [destinatario] and [direccion], neither of them
    null.  The record stores a string of at most 120 (200) characters as
    it is, and of a longer one, which the table takes only when the
    characters in excess are spaces, the first 120 (200) characters.
    Presence is checked by validation before any write, null and length by
    the table; emptiness is checked nowhere.  The request is answered 201
    with the record, or, when the connection is lost once the server has
    committed, with the 500 envelope. *)
Theorem persisted_fields_present :
  forall env req db r db',
    serve env (CrearEnvio req) db = (r, db') ->
    db' <> db ->
    exists j d v1 v2 row,
      request_json env req = inl j
      /\ py_or j (PDict []) = PDict d
      /\ lookup "destinatario" d = Some v1 /\ v1 <> PNone
      /\ lookup "direccion" d = Some v2 /\ v2 <> PNone
      /\ db' = {| rows := rows db ++ [row]; seq := id row + 1 |}
      /\ (r = inl (success_body
                     (shipment_body (id row) (destinatario row) (direccion row)
                        (estado row) (str_datetime (now env))),
                   201)
          \/ (r = inl (error_body "Error al guardar en la base de datos", 500)
              /\ late_fault env = true))
      /\ (forall s, v1 = PStr s ->
            destinatario row = take_chars 120 s
            /\ ((char_length s <= 120)%nat -> destinatario row = s))
      /\ (forall s, v2 = PStr s ->
            direccion row = take_chars 200 s
            /\ ((char_length s <= 200)%nat -> direccion row = s))
      /\ (char_length (destinatario row) <= 120)%nat
      /\ (char_length (direccion row) <= 200)%nat.
Proof.
  intros env req db r db' Hs Hne.
  pose proof (serve_crear_cases env req db) as Hc. rewrite Hs in Hc. cbn [fst snd] in Hc.
  inversion Hc; subst; try contradiction;
    match goal with H : insert _ _ _ = inl _ |- _ => apply insert_ok in H as Hi end;
    destruct Hi as (_ & Hv1 & Hv2 & _ & _ & _ & _ & Hfecha & ->);
    cbn [t_destinatario t_direccion envio_of] in Hv1, Hv2;
    apply stored_ok in Hv1 as (Hn1 & Hl1 & He1);
    apply stored_ok in Hv2 as (Hn2 & Hl2 & He2);
    exists j, d, v1, v2, row;
    (split; [assumption|]); (split; [assumption|]);
    (split; [assumption|]); (split; [exact Hn1|]);
    (split; [assumption|]); (split; [exact Hn2|]);
    (split; [reflexivity|]);
    (split;
     [| split; [intros t Ht; destruct (He1 t Ht) as (_ & A & B); auto|];
        split; [intros t Ht; destruct (He2 t Ht) as (_ & A & B); auto|];
        split; [exact Hl1 | exact Hl2]]).
  - right. auto.
  - left. unfold ok, to_dict, str_fecha. now rewrite Hfecha.
Qed.

(** The record persisted for a body of two empty strings. *)
Lemma persisted_fields_present_witness :
  exists j d v1 v2 row,
    request_json env0 (post empty_fields) = inl j
    /\ py_or j (PDict []) = PDict d
    /\ lookup "destinatario" d = Some v1 /\ v1 <> PNone
    /\ lookup "direccion" d = Some v2 /\ v2 <> PNone
    /\ {| rows := [empty_row]; seq := 2 |} =
       {| rows := rows create_all ++ [row]; seq := id row + 1 |}
    /\ ((inl (ok (to_dict empty_row) 201) : py response) =
          inl (success_body
                 (shipment_body (id row) (destinatario row) (direccion row)
                    (estado row) (str_datetime (now env0))),
               201)
        \/ ((inl (ok (to_dict empty_row) 201) : py response) =
              inl (error_body "Error al guardar en la base de datos", 500)
            /\ late_fault env0 = true))
    /\ (forall s, v1 = PStr s ->
          destinatario row = take_chars 120 s
          /\ ((char_length s <= 120)%nat -> destinatario row = s))
    /\ (forall s, v2 = PStr s ->
          direccion row = take_chars 200 s
          /\ ((char_length s <= 200)%nat -> direccion row = s))
    /\ (char_length (destinatario row) <= 120)%nat
    /\ (char_length (direccion row) <= 200)%nat.
Proof.
  apply (persisted_fields_present env0 (post empty_fields) create_all
           (inl (ok (to_dict empty_row) 201)) {| rows := [empty_row]; seq := 2 |}).
  - reflexivity.
  - discriminate.
Defined.

(** C6, as stated, fails: a create request whose [destinatario] and
    [direccion] are the empty string passes validation and is persisted. *)
Lemma crear_envio_empty_strings :
  serve env0 (CrearEnvio (post empty_fields)) create_all =
    (inl (success_body
            (shipment_body 1 "" "" "Registrado" "2024-03-07 09:05:00.000120"),
          201),
     {| rows := [{| id := 1; destinatario := ""; direccion := "";
                    estado := "Registrado"; fecha_registro := Some t0 |}];
        seq := 2 |}).
Proof. reflexivity. Qed.

(** ** Bodies that are missing or cannot be decoded *)

(** C7, as the code has it: when [request.json] yields a falsy value (the
    body is the JSON text null, false, 0, a float equal to zero, an empty
    string, an empty array or an empty object; or, on a release that does
    not insist on the content type, the request does not announce JSON)
    the request is treated as a create request with an empty object body:
    it reaches validation and is answered with status 400 and the error
    envelope "Faltan campos obligatorios: destinatario, direccion".  A
    request that announces JSON and cannot be decoded does not reach
    validation: [request.json] aborts it with the framework's own 400. *)
Theorem crear_envio_empty_body :
  forall env req db,
    (forall j,
       request_json env req = inl j ->
       j = PNone \/ j = PBool false \/ j = PInt 0
       \/ (exists f, j = PFloat f /\ PrimFloat.eqb f 0%float = true)
       \/ j = PStr "" \/ j = PList [] \/ j = PDict [] ->
       serve env (CrearEnvio req) db =
       (inl (error_body "Faltan campos obligatorios: destinatario, direccion", 400),
        db))
    /\ (is_json req = false -> strict_mimetype env = false ->
        serve env (CrearEnvio req) db =
        (inl (error_body "Faltan campos obligatorios: destinatario, direccion", 400),
         db))
    /\ (is_json req = true -> payload req = None ->
        serve env (CrearEnvio req) db = (inr BadRequest, db)).
Proof.
  intros env req db.
  assert (Hfalsy : forall j, request_json env req = inl j -> truthy j = false ->
            serve env (CrearEnvio req) db =
            (inl (error "Faltan campos obligatorios: destinatario, direccion" 400), db)).
  { intros j Hj Ht.
    rewrite (serve_crear_absent env req db j [] Hj (falsy_or_dict j Ht));
      [reflexivity | discriminate]. }
  repeat split.
  - intros j Hj Hv. apply (Hfalsy j Hj).
    destruct Hv as [-> | [-> | [-> | [(f & -> & Hf) | [-> | [-> | ->]]]]]];
      try reflexivity.
    cbn. now rewrite Hf.
  - intros Hn Hl. apply (Hfalsy PNone); [|reflexivity].
    unfold request_json. now rewrite Hn, Hl.
  - intros Hy Hp. unfold serve, handle, crear_envio, request_json.
    now rewrite Hy, Hp.
Qed.

(** On a release that insists on the content type, a request that does not
    announce JSON is aborted with 415. *)
Lemma crear_envio_not_json env req db :
  is_json req = false -> strict_mimetype env = true ->
  serve env (CrearEnvio req) db = (inr UnsupportedMediaType, db).
Proof.
  intros Hn Hs. unfold serve, handle, crear_envio, request_json.
  now rewrite Hn, Hs.
Qed.

(** The JSON text null, the float -0.0, and a request that does not
    announce JSON on a release that does not insist on it. *)
Lemma crear_envio_empty_body_witness :
  serve env0 (CrearEnvio (post PNone)) create_all =
    (inl (error_body "Faltan campos obligatorios: destinatario, direccion", 400),
     create_all)
  /\ serve env0 (CrearEnvio (post (PFloat (-0)%float))) create_all =
    (inl (error_body "Faltan campos obligatorios: destinatario, direccion", 400),
     create_all)
  /\ serve env_lenient (CrearEnvio no_body) create_all =
    (inl (error_body "Faltan campos obligatorios: destinatario, direccion", 400),
     create_all).
Proof.
  split; [|split].
  - apply (proj1 (crear_envio_empty_body env0 (post PNone) create_all)
             PNone eq_refl).
    left. reflexivity.
  - apply (proj1 (crear_envio_empty_body env0 (post (PFloat (-0)%float)) create_all)
             (PFloat (-0)%float) eq_refl).
    right. right. right. left. exists (-0)%float. split; reflexivity.
  - exact (proj1 (proj2 (crear_envio_empty_body env_lenient no_body create_all))
             eq_refl eq_refl).
Defined.

(** C7, as stated, fails: a body that cannot be decoded is not treated as
    an empty object; the handler raises before validation and no envelope
    is produced. *)
Lemma crear_envio_unparseable :
  request_json env0 unparseable = inr BadRequest
  /\ serve env0 (CrearEnvio unparseable) create_all = (inr BadRequest, create_all).
Proof. split; reflexivity. Qed.

(** ** Round trip *)

Lemma find_last_key (l : list Envio) (row : Envio) :
  ~ In (id row) (map id l) ->
  find (fun e => id e =? id row) (l ++ [row]) = Some row.
Proof.
  induction l as [|x xs IH]; intros Hn; cbn.
  - now rewrite Z.eqb_refl.
  - destruct (id x =? id row) eqn:Hx.
    + apply Z.eqb_eq in Hx. exfalso. apply Hn. left. exact Hx.
    + apply IH. intros Hin. apply Hn. now right.
Qed.

Lemma find_app_found {A : Type} (f : A -> bool) (l new : list A) (a : A) :
  find f l = Some a -> find f (l ++ new) = Some a.
Proof.
  induction l as [|x xs IH]; cbn; [discriminate|].
  destruct (f x); auto.
Qed.

Lemma ok_inj data data' code code' :
  ok data code = ok data' code' -> data = data' /\ code = code'.
Proof. unfold ok. intros H. injection H as -> ->. auto. Qed.

(** A 201 answer carries the row the request has stored. *)
Lemma serve_created env req db data db' :
  serve env (CrearEnvio req) db = (inl (ok data 201), db') ->
  exists row,
    data = to_dict row
    /\ db' = {| rows := rows db ++ [row]; seq := id row + 1 |}
    /\ ~ In (id row) (map id (rows db))
    /\ 1 <= id row.
Proof.
  intros Hs.
  destruct (serve_step env (CrearEnvio req) db) as [(_ & _ & _ & Hno) | Hyes].
  - rewrite Hs in Hno. cbn [fst] in Hno. now destruct (Hno data).
  - destruct Hyes as (row & Hdb & _ & Hfree & _ & Hrange & _ & Hr).
    rewrite Hs in Hdb, Hr. cbn [fst snd] in Hdb, Hr.
    destruct Hr as [[Hr _] | [Hr _]]; [|discriminate].
    apply (f_equal (fun r => match r with inl x => x | inr _ => ok PNone 0 end)) in Hr.
    apply ok_inj in Hr as [-> _].
    exists row. repeat split; auto. lia.
Qed.

(** C8: the shipment object of a 201 response and the one returned by a
    GET for its [id] on the table the create left behind are the same
    object, field for field. *)
Theorem crear_then_obtener :
  forall env env' req db data db',
    serve env (CrearEnvio req) db = (inl (ok data 201), db') ->
    exists i,
      returned_id (inl (ok data 201)) = Some i
      /\ lookup_field "id" data = Some (PInt i)
      /\ serve env' (ObtenerEnvio i) db' = (inl (ok data 200), db').
Proof.
  intros env env' req db data db' Hs.
  destruct (serve_created _ _ _ _ _ Hs) as (row & -> & -> & Hfree & Hpos).
  exists (id row). repeat split.
  rewrite serve_obtener by lia. unfold query_get, begin. cbn [working rows].
  now rewrite find_last_key.
Qed.

(** The record created for Ana Gomez, read back under another
    environment. *)
Lemma crear_then_obtener_witness :
  exists i,
    returned_id (inl (ok (to_dict ana_row) 201)) = Some i
    /\ lookup_field "id" (to_dict ana_row) = Some (PInt i)
    /\ serve env_commit_fault (ObtenerEnvio i) {| rows := [ana_row]; seq := 2 |} =
       (inl (ok (to_dict ana_row) 200), {| rows := [ana_row]; seq := 2 |}).
Proof.
  apply (crear_then_obtener env0 env_commit_fault (post ana) create_all
           (to_dict ana_row) {| rows := [ana_row]; seq := 2 |}).
  reflexivity.
Defined.

(** ** The two envelopes *)


Lemma insert_value_error env db obj :
  insert env db obj = inr ValueError ->
  sendable env (t_destinatario obj) = false
  \/ sendable env (t_direccion obj) = false
  \/ sendable env (with_default (PStr "Registrado") (t_estado obj)) = false.
Proof.
  intros H.
  destruct (sendable env (t_destinatario obj)) eqn:S1; [|auto].
  destruct (sendable env (t_direccion obj)) eqn:S2; [|auto].
  destruct (sendable env (with_default (PStr "Registrado") (t_estado obj))) eqn:S3; [|auto].
  pose proof (insert_sendable env db obj ValueError S1 S2 S3 H). discriminate.
Qed.



(** ** The fields a create request reads *)

(** C10: two object bodies that agree on [destinatario], [direccion] and
    [estado] are answered alike and leave the same table, whatever other
    keys they carry; and the [id] and [fecha_registro] of a row a create
    request adds are the next value of the sequence and the server's
    [now()], never a value of the body. *)
Theorem crear_envio_reads_three_fields :
  forall env req1 req2 db j1 j2 d1 d2,
    request_json env req1 = inl j1 ->
    py_or j1 (PDict []) = PDict d1 ->
    request_json env req2 = inl j2 ->
    py_or j2 (PDict []) = PDict d2 ->
    (forall k, In k ["destinatario"; "direccion"; "estado"] ->
               lookup k d1 = lookup k d2) ->
    serve env (CrearEnvio req1) db = serve env (CrearEnvio req2) db
    /\ (forall row,
          In row (rows (snd (serve env (CrearEnvio req1) db))) ->
          In row (rows db)
          \/ (id row = seq db + Z.of_nat (skip env)
              /\ fecha_registro row = Some (now env))).
Proof.
  intros env req1 req2 db j1 j2 d1 d2 Hj1 Hd1 Hj2 Hd2 Hk.
  assert (Hdest : lookup "destinatario" d1 = lookup "destinatario" d2)
    by (apply Hk; cbn; auto).
  assert (Hdir : lookup "direccion" d1 = lookup "direccion" d2)
    by (apply Hk; cbn; auto).
  assert (Hest : lookup "estado" d1 = lookup "estado" d2)
    by (apply Hk; cbn; auto).
  split.
  - destruct (lookup "destinatario" d1) as [v1|] eqn:H1;
      destruct (lookup "direccion" d1) as [v2|] eqn:H2.
    + rewrite (serve_crear_present _ _ _ _ _ _ _ Hj1 Hd1 H1 H2).
      rewrite (serve_crear_present _ _ _ _ _ _ _ Hj2 Hd2 (eq_sym Hdest) (eq_sym Hdir)).
      unfold envio_of. now rewrite Hest.
    + rewrite (serve_crear_absent _ _ _ _ _ Hj1 Hd1), (serve_crear_absent _ _ _ _ _ Hj2 Hd2);
        unfold absent_fields; rewrite <- ?Hdest, <- ?Hdir, ?H1, ?H2;
        [reflexivity | discriminate | discriminate].
    + rewrite (serve_crear_absent _ _ _ _ _ Hj1 Hd1), (serve_crear_absent _ _ _ _ _ Hj2 Hd2);
        unfold absent_fields; rewrite <- ?Hdest, <- ?Hdir, ?H1, ?H2;
        [reflexivity | discriminate | discriminate].
    + rewrite (serve_crear_absent _ _ _ _ _ Hj1 Hd1), (serve_crear_absent _ _ _ _ _ Hj2 Hd2);
        unfold absent_fields; rewrite <- ?Hdest, <- ?Hdir, ?H1, ?H2;
        [reflexivity | discriminate | discriminate].
  - intros row Hin.
    destruct (serve_step env (CrearEnvio req1) db)
      as [(Hdb & _) | (row' & Hdb & _ & _ & Hid & _ & Hfecha & _)];
      rewrite Hdb in Hin; [auto|].
    cbn [rows] in Hin. apply in_app_or in Hin as [Hin | [<- | []]]; auto.
Qed.

(** A body that carries an id, a timestamp and a key of its own besides
    the required fields. *)
Lemma crear_envio_reads_three_fields_witness :
  serve env0 (CrearEnvio (post ana)) create_all =
  serve env0 (CrearEnvio (post ana_with_extras)) create_all
  /\ (forall row,
        In row (rows (snd (serve env0 (CrearEnvio (post ana)) create_all))) ->
        In row (rows create_all)
        \/ (id row = seq create_all + Z.of_nat (skip env0)
            /\ fecha_registro row = Some (now env0))).
Proof.
  apply (crear_envio_reads_three_fields env0 (post ana) (post ana_with_extras)
           create_all ana ana_with_extras
           [("destinatario", PStr "Ana Gomez"); ("direccion", PStr "Calle 1")]
           [("id", PInt 999); ("fecha_registro", PStr "1999-12-31 00:00:00");
            ("destinatario", PStr "Ana Gomez"); ("direccion", PStr "Calle 1");
            ("prioridad", PBool true)]
           eq_refl eq_refl eq_refl eq_refl).
  intros k [<- | [<- | [<- | []]]]; reflexivity.
Defined.

(** * Further properties of the handlers *)

(** ** Runs *)

Lemma shuffle_permutation {A : Type} (ks : list nat) (l : list A) :
  Permutation (shuffle ks l) l.
Proof.
  revert ks. induction l as [|x l IH]; intros ks; cbn; [constructor|].
  assert (Hins : forall k (m : list A), Permutation (insert_at k x m) (x :: m)).
  { intros k. induction k as [|k IHk]; intros m; cbn.
    - destruct m; apply Permutation_refl.
    - destruct m as [|y m]; [apply Permutation_refl|].
      eapply perm_trans; [apply perm_skip, IHk | apply perm_swap]. }
  eapply perm_trans; [apply Hins | apply perm_skip, IH].
Qed.

(** Over a run the table keeps its rows and gains new ones, with keys no
    row had; the objects of the 201 responses are among the new rows, and
    are all of them when no connection was lost after a commit. *)
Lemma run_rows cs : forall db,
  exists new : list Envio,
    rows (snd (run cs db)) = (rows db ++ new)%list
    /\ (forall data, In data (created_objects (fst (run cs db))) ->
          exists e, In e new /\ data = to_dict e)
    /\ (forall n, In n (returned_ids (fst (run cs db))) -> In n (map id new))
    /\ (List.length (created_objects (fst (run cs db))) <= List.length new)%nat
    /\ (Forall (fun ec => late_fault (fst ec) = false) cs ->
          map to_dict new = created_objects (fst (run cs db))
          /\ map id new = returned_ids (fst (run cs db)))
    /\ (forall e, In e new -> ~ In (id e) (map id (rows db)) /\ 1 <= id e)
    /\ seq db <= seq (snd (run cs db)).
Proof.
  induction cs as [|[env c] cs IH]; intros db.
  - exists []. cbn. rewrite app_nil_r.
    repeat split; auto; try lia; intros ? [].
  - pose proof (serve_step env c db) as Hs. cbn [run].
    destruct (serve env c db) as [r db1]. cbn [fst snd] in Hs.
    destruct (IH db1) as (new & Hrows & Hobjs & Hids & Hlen & Hexact & Hfresh & Hseq).
    destruct (run cs db1) as [rs db2].
    cbn [fst snd returned_ids created_objects] in *.
    destruct Hs as [(-> & Hr & Ho & _) | (row & -> & _ & Hfree & Hid & Hrange & _ & Hr)].
    + rewrite Hr, Ho. exists new.
      split; [exact Hrows|]. split; [exact Hobjs|]. split; [exact Hids|].
      split; [exact Hlen|].
      split; [intros Hall; inversion Hall; subst; now apply Hexact|].
      split; [exact Hfresh | exact Hseq].
    + cbn [rows seq] in *. exists (row :: new).
      rewrite Hrows, <- app_assoc. cbn [app].
      assert (Hnew : forall e, In e (row :: new) ->
                ~ In (id e) (map id (rows db)) /\ 1 <= id e).
      { intros e [<- | Hin]; [split; [exact Hfree | lia]|].
        destruct (Hfresh e Hin) as [Hn Hp]. split; [|exact Hp].
        intros Hin'. apply Hn. rewrite map_app. apply in_or_app. now left. }
      destruct Hr as [[-> Hnf] | [-> Hlate]].
      * rewrite returned_id_created, created_object_created.
        split; [reflexivity|]. split.
        { intros data [<- | Hin]; [exists row; cbn; auto|].
          destruct (Hobjs data Hin) as (e & He & ->). exists e. cbn; auto. }
        split.
        { intros n [<- | Hin]; cbn; auto. }
        split; [cbn; lia|]. split.
        { intros Hall. inversion Hall; subst.
          destruct (Hexact ltac:(assumption)) as [E1 E2].
          cbn [map]. now rewrite E1, E2. }
        split; [exact Hnew | lia].
      * assert (Hrid : returned_id (inl (error "Error al guardar en la base de datos" 500))
                       = None) by reflexivity.
        assert (Hco : created_object (inl (error "Error al guardar en la base de datos" 500))
                      = None) by reflexivity.
        rewrite Hrid, Hco.
        split; [reflexivity|]. split.
        { intros data Hin. destruct (Hobjs data Hin) as (e & He & ->).
          exists e. cbn; auto. }
        split.
        { intros n Hin. cbn; auto. }
        split; [cbn; lia|]. split.
        { intros Hall. inversion Hall as [|? ? Hh Ht]; subst.
          cbn [fst] in Hh. congruence. }
        split; [exact Hnew | lia].
Qed.

Lemma run_rows_create_all cs :
  Forall (fun ec => late_fault (fst ec) = false) cs ->
  map to_dict (rows (snd (run cs create_all))) = created_objects (fst (run cs create_all))
  /\ map id (rows (snd (run cs create_all))) = returned_ids (fst (run cs create_all)).
Proof.
  intros Hall.
  destruct (run_rows cs create_all) as (new & Hrows & _ & _ & _ & Hexact & _).
  cbn [rows create_all app] in Hrows. rewrite Hrows. now apply Hexact.
Qed.

(** ** Reads *)

(** X1: the read requests are transparent.  Dropping the GET requests from
    a sequence of requests changes neither the table it leaves nor the
    answers to its create requests. *)
Theorem reads_are_transparent :
  forall cs db,
    snd (run (writes cs) db) = snd (run cs db)
    /\ fst (run (writes cs) db) = create_answers cs (fst (run cs db)).
Proof.
  intros cs db. split.
  - revert db. induction cs as [|[env c] cs IH]; intros db; [reflexivity|].
    unfold writes in *. cbn [filter snd run].
    destruct c as [ | | i | req ]; cbn [is_create run].
    1-3: match goal with
         | |- context [serve ?e ?c ?d] =>
           destruct (serve_read_only e c d eq_refl) as [Hdb _];
           destruct (serve e c d) as [r db1]; cbn [snd] in Hdb; subst db1;
           rewrite IH; destruct (run cs db); reflexivity
         end.
    destruct (serve env (CrearEnvio req) db) as [r db1].
    specialize (IH db1).
    destruct (run (filter _ cs) db1), (run cs db1). exact IH.
  - revert db. induction cs as [|[env c] cs IH]; intros db; [reflexivity|].
    unfold writes in *. cbn [filter snd run].
    destruct c as [ | | i | req ]; cbn [is_create run].
    1-3: match goal with
         | |- context [serve ?e ?c ?d] =>
           destruct (serve_read_only e c d eq_refl) as [Hdb _];
           destruct (serve e c d) as [r db1]; cbn [snd] in Hdb; subst db1;
           rewrite IH; destruct (run cs db); reflexivity
         end.
    destruct (serve env (CrearEnvio req) db) as [r db1].
    specialize (IH db1).
    destruct (run (filter _ cs) db1), (run cs db1).
    cbn [fst create_answers is_create] in *. now rewrite IH.
Qed.

(** X2: no request removes or changes a stored record.  Every row of the
    table before a sequence of requests is a row of the table after it; and
    the object of every 201 response of the sequence is the serialization,
    field by field, of a row of the table after it, whose key no row had
    before. *)
Theorem stored_rows_are_kept :
  forall cs db,
    (forall e, In e (rows db) -> In e (rows (snd (run cs db))))
    /\ (forall data,
          In data (created_objects (fst (run cs db))) ->
          exists e,
            In e (rows (snd (run cs db)))
            /\ ~ In (id e) (map id (rows db))
            /\ data = shipment_body (id e) (destinatario e) (direccion e) (estado e)
                        (match fecha_registro e with
                         | Some t => str_datetime t
                         | None => "None"
                         end)).
Proof.
  intros cs db.
  destruct (run_rows cs db) as (new & Hrows & Hobjs & _ & _ & _ & Hfresh & _).
  rewrite Hrows. split.
  - intros e Hin. apply in_or_app. now left.
  - intros data Hin. destruct (Hobjs data Hin) as (e & He & ->).
    exists e. split; [apply in_or_app; now right|].
    split; [apply (Hfresh e He) | reflexivity].
Qed.

(** X3: GET /envios is answered with status 200 and the success envelope
    of a list that holds the serialization of every row of the table once,
    in an order the database chooses.  After a sequence of requests that
    started on the empty table the list holds every object its 201
    responses carried, and is at least as long; when no connection was
    lost after a commit, it holds exactly those objects. *)
Theorem listar_envios_lists_created :
  forall cs env,
    exists l,
      serve env ListarEnvios (snd (run cs create_all)) =
        (inl (success_body (PList l), 200), snd (run cs create_all))
      /\ Permutation l (map to_dict (rows (snd (run cs create_all))))
      /\ (forall data, In data (created_objects (fst (run cs create_all))) -> In data l)
      /\ (List.length (created_objects (fst (run cs create_all))) <= List.length l)%nat
      /\ (Forall (fun ec => late_fault (fst ec) = false) cs ->
          Permutation l (created_objects (fst (run cs create_all)))).
Proof.
  intros cs env.
  exists (map to_dict (shuffle (scan env) (rows (snd (run cs create_all))))).
  assert (Hperm : Permutation
                    (map to_dict (shuffle (scan env) (rows (snd (run cs create_all)))))
                    (map to_dict (rows (snd (run cs create_all)))))
    by apply Permutation_map, shuffle_permutation.
  destruct (run_rows cs create_all) as (new & Hrows & Hobjs & _ & Hlen & _).
  cbn [rows create_all app] in Hrows.
  split; [reflexivity|]. split; [exact Hperm|]. split; [|split].
  - intros data Hin. destruct (Hobjs data Hin) as (e & He & ->).
    apply (Permutation_in _ (Permutation_sym Hperm)).
    rewrite Hrows. now apply in_map.
  - rewrite (Permutation_length Hperm), Hrows, length_map. exact Hlen.
  - intros Hall. destruct (run_rows_create_all cs Hall) as [E _].
    now rewrite <- E.
Qed.

(** X4: a record, once created, stays readable and never changes: whatever
    requests follow the create, a GET for the id of its 201 response
    returns, with status 200, the object that response carried. *)
Theorem created_record_stays_readable :
  forall env req db data db1 cs env',
    serve env (CrearEnvio req) db = (inl (ok data 201), db1) ->
    exists i,
      returned_id (inl (ok data 201)) = Some i
      /\ serve env' (ObtenerEnvio i) (snd (run cs db1)) =
         (inl (ok data 200), snd (run cs db1)).
Proof.
  intros env req db data db1 cs env' Hs.
  destruct (serve_created _ _ _ _ _ Hs) as (row & -> & -> & Hfree & Hpos).
  exists (id row). split; [reflexivity|].
  destruct (run_rows cs {| rows := rows db ++ [row]; seq := id row + 1 |})
    as (new & Hrows & _).
  rewrite serve_obtener by lia. unfold query_get, begin. cbn [working rows] in *.
  rewrite Hrows.
  now rewrite (find_app_found _ _ new row (find_last_key (rows db) row Hfree)).
Qed.

(** Ana Gomez is created on the empty table; two more creates and a read
    follow; her record is read back as it was returned. *)
Lemma created_record_stays_readable_witness :
  exists i,
    returned_id (inl (ok (to_dict ana_row) 201)) = Some i
    /\ serve env_commit_fault (ObtenerEnvio i)
         (snd (run [(env0, CrearEnvio (post empty_fields)); (env0, ListarEnvios);
                    (env0, CrearEnvio (post ana_with_extras))]
                   {| rows := [ana_row]; seq := 2 |})) =
       (inl (ok (to_dict ana_row) 200),
        snd (run [(env0, CrearEnvio (post empty_fields)); (env0, ListarEnvios);
                  (env0, CrearEnvio (post ana_with_extras))]
                 {| rows := [ana_row]; seq := 2 |})).
Proof.
  apply (created_record_stays_readable env0 (post ana) create_all (to_dict ana_row)
           {| rows := [ana_row]; seq := 2 |}).
  reflexivity.
Defined.

(** X5: after a sequence of requests that started on the empty table and
    in which no connection was lost after a commit, GET /envios/i, for [i]
    not negative, is answered with status 404 and the error envelope "Envío
    no encontrado" exactly when no 201 response of the sequence has
    returned [i] as an id. *)
Theorem obtener_404_iff_never_returned :
  forall cs env i,
    0 <= i ->
    Forall (fun ec => late_fault (fst ec) = false) cs ->
    (serve env (ObtenerEnvio i) (snd (run cs create_all)) =
       (inl (error_body "Envío no encontrado", 404), snd (run cs create_all))
     <-> ~ In i (returned_ids (fst (run cs create_all)))).
Proof.
  intros cs env i Hi Hall.
  destruct (run_rows_create_all cs Hall) as [_ Hids].
  rewrite (serve_obtener env i _ Hi), <- Hids.
  destruct (query_get i (begin (snd (run cs create_all)))) as [e|] eqn:Hq.
  - apply query_get_some in Hq as [Hin Heq]. cbn [begin working] in Hin.
    split; [discriminate|].
    intros Hn. exfalso. apply Hn. rewrite <- Heq. now apply in_map.
  - split; [|reflexivity]. intros _ Hin.
    apply in_map_iff in Hin as (e & Heq & Hin).
    pose proof (proj1 (query_get_none _ _) Hq e) as Hne.
    cbn [begin working] in Hne. now apply Hne.
Qed.

(** After the create of Ana Gomez and a refused create, the id 2 has not
    been returned. *)
Lemma obtener_404_iff_never_returned_witness :
  serve env0 (ObtenerEnvio 2)
    (snd (run [(env0, CrearEnvio (post ana));
               (env_commit_fault, CrearEnvio (post empty_fields))] create_all)) =
    (inl (error_body "Envío no encontrado", 404),
     snd (run [(env0, CrearEnvio (post ana));
               (env_commit_fault, CrearEnvio (post empty_fields))] create_all))
  <-> ~ In 2 (returned_ids
                (fst (run [(env0, CrearEnvio (post ana));
                           (env_commit_fault, CrearEnvio (post empty_fields))]
                          create_all))).
Proof.
  apply (obtener_404_iff_never_returned
           [(env0, CrearEnvio (post ana));
            (env_commit_fault, CrearEnvio (post empty_fields))] env0 2).
  - lia.
  - repeat constructor.
Defined.

(** ** The answers of the create handler *)

(** X8: what a create request leaves in the table.  A 201 answer comes
    with exactly one new row, the one it returns.  A request that changes
    the table is answered 201, or, when the connection is lost once the
    server has committed, with the 500 envelope: then the record is stored
    although the client is told of an error.  Without such a fault a
    create request changes the table exactly when it is answered 201. *)
Theorem crear_envio_201_iff_persisted :
  forall env req db,
    (forall data,
       fst (serve env (CrearEnvio req) db) = inl (success_body data, 201) ->
       exists row,
         snd (serve env (CrearEnvio req) db) =
           {| rows := rows db ++ [row]; seq := id row + 1 |}
         /\ data = shipment_body (id row) (destinatario row) (direccion row)
                     (estado row) (str_datetime (now env)))
    /\ (snd (serve env (CrearEnvio req) db) <> db ->
        (exists data, fst (serve env (CrearEnvio req) db) = inl (success_body data, 201))
        \/ (fst (serve env (CrearEnvio req) db) =
              inl (error_body "Error al guardar en la base de datos", 500)
            /\ late_fault env = true))
    /\ (late_fault env = false ->
        ((exists data, fst (serve env (CrearEnvio req) db) = inl (success_body data, 201))
         <-> snd (serve env (CrearEnvio req) db) <> db)).
Proof.
  intros env req db.
  destruct (serve_step env (CrearEnvio req) db)
    as [(Hdb & _ & _ & Hno) | (row & Hdb & _ & _ & _ & _ & Hfecha & Hr)].
  - split; [|split].
    + intros data H. now destruct (Hno data).
    + intros H. contradiction.
    + intros _. split.
      * intros [data H]. now destruct (Hno data).
      * intros H. contradiction.
  - assert (Hne : snd (serve env (CrearEnvio req) db) <> db).
    { rewrite Hdb. intros H. apply (f_equal rows) in H.
      cbn [rows] in H. now apply app_one_neq in H. }
    split; [|split].
    + intros data H. exists row. split; [exact Hdb|].
      destruct Hr as [[Hr _] | [Hr _]]; rewrite Hr in H; [|discriminate].
      unfold ok, to_dict, str_fecha in H. rewrite Hfecha in H.
      now injection H as <-.
    + intros _. destruct Hr as [[Hr _] | [Hr Hl]]; rewrite Hr.
      * left. eexists. reflexivity.
      * right. auto.
    + intros Hl. split; [intros _; exact Hne|]. intros _.
      destruct Hr as [[Hr _] | [_ Hl']]; [|congruence].
      rewrite Hr. eexists. reflexivity.
Qed.

Lemma stored_too_long env limit s t :
  stored env limit (PStr s) = inl t ->
  (char_length s <= limit)%nat \/ all_spaces (drop_chars limit s) = true.
Proof.
  unfold stored, bind_param, bind, ret, raise.
  destruct (encodable s); [|discriminate]. cbn. unfold store_varchar.
  destruct (char_length s <=? limit)%nat eqn:Hl.
  - apply Nat.leb_le in Hl. auto.
  - destruct (all_spaces _); [auto | discriminate].
Qed.

(** X9: a create whose body passes validation, whose values the driver
    can send and which the table cannot take is answered with status 500
    and the error envelope "Error al guardar en la base de datos", and
    leaves the table as it was.  This is so when [destinatario],
    [direccion] or [estado] is a string longer than its column (120, 200,
    30 characters) with a character other than a space in the excess, when
    no connection can be had, when COMMIT fails, and when the key sequence
    has passed the largest integer key. *)
Theorem crear_envio_refused :
  forall env req db j d v1 v2,
    request_json env req = inl j ->
    py_or j (PDict []) = PDict d ->
    lookup "destinatario" d = Some v1 ->
    lookup "direccion" d = Some v2 ->
    sendable env v1 = true ->
    sendable env v2 = true ->
    sendable env
      (with_default (PStr "Registrado")
         (match lookup "estado" d with
          | Some v => v
          | None => PStr "Registrado"
          end)) = true ->
    (exists s, v1 = PStr s /\ (120 < char_length s)%nat
               /\ all_spaces (drop_chars 120 s) = false)
    \/ (exists s, v2 = PStr s /\ (200 < char_length s)%nat
                  /\ all_spaces (drop_chars 200 s) = false)
    \/ (exists s, lookup "estado" d = Some (PStr s) /\ (30 < char_length s)%nat
                  /\ all_spaces (drop_chars 30 s) = false)
    \/ db_fault env = ConnectFault
    \/ db_fault env = CommitFault
    \/ int4_max < seq db + Z.of_nat (skip env) ->
    serve env (CrearEnvio req) db =
    (inl (error_body "Error al guardar en la base de datos", 500), db).
Proof.
  intros env req db j d v1 v2 Hj Hd H1 H2 S1 S2 S3 Hcause.
  rewrite (serve_crear_present _ _ _ _ _ _ _ Hj Hd H1 H2).
  destruct (insert env db (envio_of d v1 v2)) as [[row w]|e] eqn:Hi.
  - pose proof (insert_ok _ _ _ _ _ Hi) as (Hf & Hv1 & Hv2 & Hv3 & Hid & Hrange & _).
    cbn [envio_of t_destinatario t_direccion t_estado] in Hv1, Hv2, Hv3.
    destruct Hcause
      as [(s & -> & Hl & Hsp) | [(s & -> & Hl & Hsp) | [(s & Hs & Hl & Hsp)
          | [Hfault | [Hfault | Hseq]]]]].
    + destruct (stored_too_long _ _ _ _ Hv1); [lia | congruence].
    + destruct (stored_too_long _ _ _ _ Hv2); [lia | congruence].
    + rewrite Hs in Hv3. cbn [with_default] in Hv3.
      destruct (stored_too_long _ _ _ _ Hv3); [lia | congruence].
    + contradiction.
    + now rewrite Hfault.
    + lia.
  - rewrite (insert_sendable env db (envio_of d v1 v2) e S1 S2 S3 Hi). reflexivity.
Qed.

(** A status of 31 characters on an otherwise acceptable body. *)
Lemma crear_envio_refused_witness :
  serve env0 (CrearEnvio (post ana_long_status)) create_all =
  (inl (error_body "Error al guardar en la base de datos", 500), create_all).
Proof.
  apply (crear_envio_refused env0 (post ana_long_status) create_all ana_long_status
           [("destinatario", PStr "Ana Gomez"); ("direccion", PStr "Calle 1");
            ("estado", PStr long_status)]
           (PStr "Ana Gomez") (PStr "Calle 1")
           eq_refl eq_refl eq_refl eq_refl eq_refl eq_refl eq_refl).
  right. right. left. exists long_status.
  split; [reflexivity|]. split; [apply Nat.ltb_lt; reflexivity | reflexivity].
Defined.

Lemma insert_estado_default env db v1 v2 e1 e2 :
  with_default (PStr "Registrado") e1 = with_default (PStr "Registrado") e2 ->
  insert env db {| t_destinatario := v1; t_direccion := v2; t_estado := e1 |} =
  insert env db {| t_destinatario := v1; t_direccion := v2; t_estado := e2 |}.
Proof.
  intros H. unfold insert. cbn [t_destinatario t_direccion t_estado].
  now rewrite H.
Qed.

(** X10: a null [estado] counts as none.  A body whose [estado] is null is
    answered as the same body without [estado], and the record created for
    either has the column's default, "Registrado". *)
Theorem crear_envio_null_estado :
  forall env req1 req2 db j1 j2 d1 d2,
    request_json env req1 = inl j1 ->
    py_or j1 (PDict []) = PDict d1 ->
    request_json env req2 = inl j2 ->
    py_or j2 (PDict []) = PDict d2 ->
    lookup "destinatario" d1 = lookup "destinatario" d2 ->
    lookup "direccion" d1 = lookup "direccion" d2 ->
    lookup "estado" d1 = Some PNone ->
    lookup "estado" d2 = None ->
    serve env (CrearEnvio req1) db = serve env (CrearEnvio req2) db
    /\ forall data,
         fst (serve env (CrearEnvio req1) db) = inl (ok data 201) ->
         lookup_field "estado" data = Some (PStr "Registrado").
Proof.
  intros env req1 req2 db j1 j2 d1 d2 Hj1 Hd1 Hj2 Hd2 Hdest Hdir He1 He2.
  destruct (lookup "destinatario" d1) as [v1|] eqn:H1;
    destruct (lookup "direccion" d1) as [v2|] eqn:H2.
  - rewrite (serve_crear_present _ _ _ _ _ _ _ Hj1 Hd1 H1 H2).
    rewrite (serve_crear_present _ _ _ _ _ _ _ Hj2 Hd2 (eq_sym Hdest) (eq_sym Hdir)).
    unfold envio_of. rewrite He1, He2.
    rewrite (insert_estado_default env db v1 v2 PNone (PStr "Registrado") eq_refl).
    split; [reflexivity|].
    intros data.
    destruct (insert env db _) as [[row w]|e] eqn:Hi.
    + apply insert_ok in Hi as (_ & _ & _ & Hv3 & _).
      cbn [t_estado with_default] in Hv3.
      apply stored_ok in Hv3 as (_ & _ & Heq).
      destruct (Heq _ eq_refl) as (_ & _ & Hsame).
      assert (Hreg : estado row = "Registrado")
        by (apply Hsame; apply Nat.leb_le; reflexivity).
      destruct (db_fault env); cbn [fst]; intros Hr; try discriminate;
        injection Hr as <-; cbn; now rewrite Hreg.
    + destruct (insert_raises _ _ _ _ Hi) as [-> | ->]; cbn [fst]; discriminate.
  - split.
    + rewrite (serve_crear_absent _ _ _ _ _ Hj1 Hd1), (serve_crear_absent _ _ _ _ _ Hj2 Hd2);
        unfold absent_fields; rewrite <- ?Hdest, <- ?Hdir, ?H1, ?H2;
        [reflexivity | discriminate | discriminate].
    + intros data. rewrite (serve_crear_absent _ _ _ _ _ Hj1 Hd1);
        [cbn [fst]; discriminate | unfold absent_fields; rewrite H1, H2; discriminate].
  - split.
    + rewrite (serve_crear_absent _ _ _ _ _ Hj1 Hd1), (serve_crear_absent _ _ _ _ _ Hj2 Hd2);
        unfold absent_fields; rewrite <- ?Hdest, <- ?Hdir, ?H1, ?H2;
        [reflexivity | discriminate | discriminate].
    + intros data. rewrite (serve_crear_absent _ _ _ _ _ Hj1 Hd1);
        [cbn [fst]; discriminate | unfold absent_fields; rewrite H1, H2; discriminate].
  - split.
    + rewrite (serve_crear_absent _ _ _ _ _ Hj1 Hd1), (serve_crear_absent _ _ _ _ _ Hj2 Hd2);
        unfold absent_fields; rewrite <- ?Hdest, <- ?Hdir, ?H1, ?H2;
        [reflexivity | discriminate | discriminate].
    + intros data. rewrite (serve_crear_absent _ _ _ _ _ Hj1 Hd1);
        [cbn [fst]; discriminate | unfold absent_fields; rewrite H1, H2; discriminate].
Qed.

(** Ana Gomez with a null status and with none. *)
Lemma crear_envio_null_estado_witness :
  serve env0 (CrearEnvio (post ana_null_status)) create_all =
    serve env0 (CrearEnvio (post ana)) create_all
  /\ forall data,
       fst (serve env0 (CrearEnvio (post ana_null_status)) create_all) = inl (ok data 201) ->
       lookup_field "estado" data = Some (PStr "Registrado").
Proof.
  apply (crear_envio_null_estado env0 (post ana_null_status) (post ana) create_all
           ana_null_status ana
           [("destinatario", PStr "Ana Gomez"); ("direccion", PStr "Calle 1");
            ("estado", PNone)]
           [("destinatario", PStr "Ana Gomez"); ("direccion", PStr "Calle 1")]);
    reflexivity.
Defined.

(** ** Bodies that are not objects *)

(** X11: a body that is a JSON value other than an object, and not falsy,
    never creates a record.  [true], a number other than zero (a float
    that does not compare equal to zero) make the handler raise
    [TypeError]; for a string that is not empty the required fields are
    looked for among its substrings and for an array that is not empty
    among its elements: the fields not found are reported with status 400,
    and when both are found the handler raises [TypeError] at the first
    subscript. *)
Theorem crear_envio_non_object_body :
  forall env req db j,
    request_json env req = inl j ->
    match j with
    | PBool b =>
      b = true -> serve env (CrearEnvio req) db = (inr TypeError, db)
    | PInt n =>
      n <> 0 -> serve env (CrearEnvio req) db = (inr TypeError, db)
    | PFloat f =>
      PrimFloat.eqb f 0%float = false ->
      serve env (CrearEnvio req) db = (inr TypeError, db)
    | PStr s =>
      s <> "" ->
      serve env (CrearEnvio req) db =
      (match is_substring "destinatario" s, is_substring "direccion" s with
       | true, true => inr TypeError
       | false, true =>
         inl (error_body "Faltan campos obligatorios: destinatario", 400)
       | true, false =>
         inl (error_body "Faltan campos obligatorios: direccion", 400)
       | false, false =>
         inl (error_body "Faltan campos obligatorios: destinatario, direccion", 400)
       end, db)
    | PList l =>
      l <> [] ->
      serve env (CrearEnvio req) db =
      (match existsb (is_str "destinatario") l, existsb (is_str "direccion") l with
       | true, true => inr TypeError
       | false, true =>
         inl (error_body "Faltan campos obligatorios: destinatario", 400)
       | true, false =>
         inl (error_body "Faltan campos obligatorios: direccion", 400)
       | false, false =>
         inl (error_body "Faltan campos obligatorios: destinatario, direccion", 400)
       end, db)
    | _ => True
    end.
Proof.
  intros env req db j Hj.
  destruct j as [ | b | n | f | s | l | d ]; try exact I.
  - intros ->. unfold serve, handle, crear_envio. rewrite Hj. reflexivity.
  - intros Hn. unfold serve, handle, crear_envio. rewrite Hj. cbv zeta.
    unfold py_or, truthy. apply Z.eqb_neq in Hn. rewrite Hn. reflexivity.
  - intros Hf. unfold serve, handle, crear_envio. rewrite Hj. cbv zeta.
    unfold py_or, truthy. rewrite Hf. reflexivity.
  - intros Hs. unfold serve, handle, crear_envio. rewrite Hj. cbv zeta.
    unfold py_or, truthy. apply String.eqb_neq in Hs. rewrite Hs. cbn [negb].
    unfold required. cbn [missing_fields py_contains bind ret].
    destruct (is_substring "destinatario" s), (is_substring "direccion" s); reflexivity.
  - intros Hl. unfold serve, handle, crear_envio. rewrite Hj. cbv zeta.
    destruct l as [|x l]; [contradiction|].
    unfold py_or, truthy.
    unfold required. cbn [missing_fields py_contains bind ret].
    destruct (existsb (is_str "destinatario") (x :: l)),
             (existsb (is_str "direccion") (x :: l)); reflexivity.
Qed.

(** An array that holds both names passes the membership tests and fails at
    the subscript. *)
Lemma crear_envio_non_object_body_witness :
  serve env0 (CrearEnvio (post names_array)) create_all = (inr TypeError, create_all).
Proof.
  apply (crear_envio_non_object_body env0 (post names_array) create_all names_array
           eq_refl).
  discriminate.
Defined.

(** X12: the exceptions that can cross the create handler.  Whatever the
    request, the table and the environment, the handler never raises
    [KeyError] nor [AttributeError] (the subscripts and [get] run only on a
    body validation has passed) and never lets a [SQLAlchemyError] out:
    what crosses it is [TypeError], the driver's [ValueError] or the abort
    of [request.json].  On a body that [request.json] yields as an object
    or as a falsy value, and whose [destinatario], [direccion] and [estado]
    the driver can send, it raises nothing: the request is answered 201,
    400 or 500. *)
Theorem crear_envio_exceptions :
  forall env req db,
    (forall e, fst (serve env (CrearEnvio req) db) = inr e ->
               e = TypeError \/ e = ValueError
               \/ e = BadRequest \/ e = UnsupportedMediaType)
    /\ (forall j d,
          request_json env req = inl j ->
          py_or j (PDict []) = PDict d ->
          (forall k v, In k ["destinatario"; "direccion"; "estado"] ->
                       lookup k d = Some v -> sendable env v = true) ->
          exists body code,
            fst (serve env (CrearEnvio req) db) = inl (body, code)
            /\ (code = 201 \/ code = 400 \/ code = 500)).
Proof.
  intros env req db.
  pose proof (serve_crear_cases env req db) as Hc.
  destruct (serve env (CrearEnvio req) db) as [r db']. cbn [fst snd] in *.
  split.
  - intros e He. subst r. inversion Hc as [ e' Hj | | | | | | ]; subst; auto.
    unfold request_json in Hj.
    destruct (is_json req); [destruct (payload req); inversion Hj; auto|].
    destruct (strict_mimetype env); inversion Hj; auto.
  - intros j d Hj Hd Hsend.
    inversion Hc as [ e' Hj' | j' Hj' Ht Hnd | | j' d' v1 v2 Hj' Hd' H1 H2 Hi | | | ];
      subst; try (do 2 eexists; split; [reflexivity|]; auto).
    + congruence.
    + exfalso. assert (j' = j) by congruence. subst j'.
      unfold py_or in Hd. rewrite Ht in Hd. now destruct (Hnd d).
    + exfalso. assert (j' = j) by congruence. subst j'.
      assert (d' = d) by congruence. subst d'.
      apply insert_value_error in Hi.
      cbn [envio_of t_destinatario t_direccion t_estado] in Hi.
      destruct Hi as [Hi | [Hi | Hi]].
      * rewrite (Hsend "destinatario" v1) in Hi; [discriminate | cbn; auto | exact H1].
      * rewrite (Hsend "direccion" v2) in Hi; [discriminate | cbn; auto | exact H2].
      * destruct (lookup "estado" d) as [v|] eqn:Hv.
        -- destruct v; cbn [with_default] in Hi;
             try (rewrite (Hsend "estado" _ ltac:(cbn; auto) Hv) in Hi; discriminate).
           discriminate.
        -- discriminate.
Qed.

(** ** A run *)

(** Two creates, a list whose SELECT returns the rows last first, two reads
    and a health check, from the empty table. *)
Example run_two_creates :
  run [(env0, CrearEnvio (post ana)); (env0, CrearEnvio (post empty_fields));
       (env_reversed, ListarEnvios);
       (env0, ObtenerEnvio 2); (env0, ObtenerEnvio 3); (env0, Health)]
      create_all =
  ([ inl (success_body
            (shipment_body 1 "Ana Gomez" "Calle 1" "Registrado"
               "2024-03-07 09:05:00.000120"), 201);
     inl (success_body
            (shipment_body 2 "" "" "Registrado" "2024-03-07 09:05:00.000120"), 201);
     inl (success_body
            (PList [shipment_body 2 "" "" "Registrado" "2024-03-07 09:05:00.000120";
                    shipment_body 1 "Ana Gomez" "Calle 1" "Registrado"
                      "2024-03-07 09:05:00.000120"]), 200);
     inl (success_body
            (shipment_body 2 "" "" "Registrado" "2024-03-07 09:05:00.000120"), 200);
     inl (error_body "Envío no encontrado", 404);
     inl (success_body (PDict [("status", PStr "ok")]), 200) ],
   {| rows := [ana_row;
               {| id := 2; destinatario := ""; direccion := "";
                  estado := "Registrado"; fecha_registro := Some t0 |}];
      seq := 3 |}).
Proof. reflexivity. Qed.
